(** * pycof.data.read: a shallow embedding and its specification

    The development follows [src/pycof/data.py].  Python strings are
    modelled as [string] (sequences of 8-bit characters, so the text is
    ASCII), the keyword arguments as a finite map, the local cache
    directory and the trace of external calls as an explicit state that
    is threaded through a small state-and-exception monad. *)

From Stdlib Require Import String Ascii List ZArith QArith Lia Bool.
From stdpp Require Import base strings gmap.
Import ListNotations.

Local Open Scope string_scope.
Local Open Scope list_scope.
Set Warnings "-register-all".

(** ** Python string primitives *)

Module PyStr.

Definition nl : string := String "010"%char "".

(** [str.isspace] on the ASCII range: TAB, LF, VT, FF, CR, the four
    separators FS, GS, RS, US, and the space. *)
Definition is_space (c : ascii) : bool :=
  let n := nat_of_ascii c in
  (((9 <=? n) && (n <=? 13)) || ((28 <=? n) && (n <=? 32)))%nat.

Definition is_upper (c : ascii) : bool :=
  let n := nat_of_ascii c in ((65 <=? n) && (n <=? 90))%nat.

(** the character class [[a-z]] *)
Definition is_lower (c : ascii) : bool :=
  let n := nat_of_ascii c in ((97 <=? n) && (n <=? 122))%nat.

Definition is_digit (c : ascii) : bool :=
  let n := nat_of_ascii c in ((48 <=? n) && (n <=? 57))%nat.

Definition lower_char (c : ascii) : ascii :=
  if is_upper c then ascii_of_nat (nat_of_ascii c + 32) else c.

(** [s.lower()] *)
Fixpoint lower (s : string) : string :=
  match s with
  | "" => ""
  | String c s' => String (lower_char c) (lower s')
  end.

(** keep the characters satisfying [p], in order:
    [''.join(re.findall(cls, s))] for a one-character class [cls] *)
Fixpoint filter_chars (p : ascii -> bool) (s : string) : string :=
  match s with
  | "" => ""
  | String c s' => if p c then String c (filter_chars p s') else filter_chars p s'
  end.

Fixpoint forall_chars (p : ascii -> bool) (s : string) : bool :=
  match s with
  | "" => true
  | String c s' => p c && forall_chars p s'
  end.

(** [s.startswith(p)], with the prefix as first argument *)
Fixpoint is_prefix (p s : string) : bool :=
  match p with
  | "" => true
  | String a p' =>
      match s with
      | "" => false
      | String b s' => Ascii.eqb a b && is_prefix p' s'
      end
  end.

Definition startswith (s p : string) : bool := is_prefix p s.

(** [sub in s] *)
Fixpoint contains (sub s : string) : bool :=
  is_prefix sub s ||
  match s with
  | "" => false
  | String _ s' => contains sub s'
  end.

Fixpoint drop (n : nat) (s : string) : string :=
  match n, s with
  | S k, String _ s' => drop k s'
  | _, _ => s
  end.

(** [s.split(sep)] for a non-empty separator: a left-to-right scan for
    non-overlapping occurrences.  [skip] counts the characters of a
    separator occurrence that are still to be passed over. *)
Fixpoint split_go (sep : string) (skip : nat) (s : string) : list string :=
  match s with
  | "" => [""]
  | String c s' =>
      match skip with
      | S k => split_go sep k s'
      | O =>
          if is_prefix sep s
          then "" :: split_go sep (String.length sep - 1) s'
          else match split_go sep 0 s' with
               | h :: t => String c h :: t
               | [] => [String c ""]
               end
      end
  end.

Definition split (sep s : string) : list string := split_go sep 0 s.

(** [l[0]]: [None] stands for the IndexError *)
Definition first {A} (l : list A) : option A := l !! 0%nat.

(** [s.split(sep)[0]] and [s.split(sep)[-1]]; [split] never returns
    the empty list, the default is never used *)
Definition split_first (sep s : string) : string := List.hd "" (split sep s).
Definition split_last (sep s : string) : string := List.last (split sep s) "".

(** [sep.join(l)] *)
Fixpoint join (sep : string) (l : list string) : string :=
  match l with
  | [] => ""
  | [x] => x
  | x :: tl => x +:+ sep +:+ join sep tl
  end.

(** [s.replace(old, new)] for a non-empty [old] *)
Fixpoint replace_go (old new : string) (skip : nat) (s : string) : string :=
  match s with
  | "" => ""
  | String c s' =>
      match skip with
      | S k => replace_go old new k s'
      | O =>
          if is_prefix old s
          then new +:+ replace_go old new (String.length old - 1) s'
          else String c (replace_go old new 0 s')
      end
  end.

Definition replace (old new s : string) : string := replace_go old new 0 s.

(** [s.lstrip()], [s.rstrip()], [s.strip()] *)
Fixpoint lstrip (s : string) : string :=
  match s with
  | "" => ""
  | String c s' => if is_space c then lstrip s' else s
  end.

Fixpoint rstrip (s : string) : string :=
  match s with
  | "" => ""
  | String c s' =>
      match rstrip s' with
      | "" => if is_space c then "" else String c ""
      | r => String c r
      end
  end.

Definition strip (s : string) : string := rstrip (lstrip s).

(** position of the first occurrence of [sub] in [s] *)
Fixpoint find (sub s : string) : option nat :=
  if is_prefix sub s then Some 0%nat
  else match s with
       | "" => None
       | String _ s' => option_map S (find sub s')
       end.

(** [re.sub(op + r"(.|\s|\n)*?" + cl, "", s)] for literal delimiters
    [op] and [cl]: every span from an opening delimiter to the nearest
    closing delimiter that begins after it is deleted, scanning from
    the left; an opening delimiter that is never closed stays. *)
Fixpoint remove_spans_go (op cl : string) (skip : nat) (s : string) : string :=
  match s with
  | "" => ""
  | String c s' =>
      match skip with
      | S k => remove_spans_go op cl k s'
      | O =>
          if is_prefix op s then
            match find cl (drop (String.length op) s) with
            | Some k =>
                remove_spans_go op cl (String.length op + k + String.length cl - 1) s'
            | None => String c (remove_spans_go op cl 0 s')
            end
          else String c (remove_spans_go op cl 0 s')
      end
  end.

Definition remove_spans (op cl s : string) : string := remove_spans_go op cl 0 s.

(** [x in l] for a list of strings *)
Definition mem (x : string) (l : list string) : bool :=
  List.existsb (String.eqb x) l.

End PyStr.

Import PyStr.

(** ** Exceptions *)

(** The Python exceptions the function can end with.  [NotModelled]
    marks the inputs on which the embedding of a library routine stops
    (a format field with a conversion, a [\u] escape in JSON text). *)
Inductive exn : Type :=
| ValueError (msg : string)
| IndexError
| KeyError (key : string)
| TypeError
| AttributeError
| ConnectionError
| ProfileNotFound
| OSError (kind : string)
| ClientError (code : string)
| JSONDecodeError
| NotModelled (what : string).

Definition result (A : Type) : Type := exn + A.

(** ** [str.format] applied to the keyword arguments *)

Module PyFormat.

Inductive mode : Type :=
| Lit                       (* literal text *)
| AfterOpen                 (* one opening brace read *)
| InField (name : string)   (* inside a replacement field *)
| AfterClose.               (* one closing brace read outside a field *)

Definition snoc (s : string) (c : ascii) : string := s +:+ String c "".

(** the value of the replacement field [name]: fields with an
    attribute, an index, a conversion or a format specification are
    outside the embedding; an empty or numeric name is positional, and
    [read] passes no positional argument *)
Definition field (kw : gmap string string) (name : string) : result string :=
  if negb (forall_chars
             (fun c => negb (List.existsb (Ascii.eqb c) ["!"; ":"; "."; "["]%char))
             name)
  then inl (NotModelled "format field")
  else if forall_chars is_digit name then inl IndexError
  else match kw !! name with
       | Some v => inr v
       | None => inl (KeyError name)
       end.

Fixpoint format_go (kw : gmap string string) (m : mode) (s : string) : result string :=
  match s with
  | "" =>
      match m with
      | Lit => inr ""
      | _ => inl (ValueError "format string")
      end
  | String c s' =>
      match m with
      | Lit =>
          if Ascii.eqb c "{" then format_go kw AfterOpen s'
          else if Ascii.eqb c "}" then format_go kw AfterClose s'
          else match format_go kw Lit s' with
               | inr r => inr (String c r)
               | inl e => inl e
               end
      | AfterOpen =>
          if Ascii.eqb c "{" then
            match format_go kw Lit s' with
            | inr r => inr (String "{" r)
            | inl e => inl e
            end
          else if Ascii.eqb c "}" then
            match field kw "" with
            | inr v => match format_go kw Lit s' with
                       | inr r => inr (v +:+ r)
                       | inl e => inl e
                       end
            | inl e => inl e
            end
          else format_go kw (InField (String c "")) s'
      | InField name =>
          if Ascii.eqb c "}" then
            match field kw name with
            | inr v => match format_go kw Lit s' with
                       | inr r => inr (v +:+ r)
                       | inl e => inl e
                       end
            | inl e => inl e
            end
          else if Ascii.eqb c "{" then
            (* a brace in the field name is an error, a brace in a
               format specification opens a nested field *)
            if forall_chars (fun x => negb (Ascii.eqb x "!" || Ascii.eqb x ":")) name
            then inl (ValueError "format string")
            else inl (NotModelled "format field")
          else format_go kw (InField (snoc name c)) s'
      | AfterClose =>
          if Ascii.eqb c "}" then
            match format_go kw Lit s' with
            | inr r => inr (String "}" r)
            | inl e => inl e
            end
          else inl (ValueError "format string")
      end
  end.

(** [s.format] with the keyword arguments [kw] *)
Definition format (kw : gmap string string) (s : string) : result string :=
  format_go kw Lit s.

End PyFormat.

(** ** [float(s)] on the strings [read] passes to it *)

Module PyFloat.

(** [read] calls [float] on a string from which every letter has been
    taken out, so the exponent, [inf] and [nan] forms cannot occur and
    are rejected here.  The value is kept as the exact rational the
    decimal literal denotes; the rounding to a binary64 is not
    modelled. *)

Inductive st : Type :=
| IntStart | IntDigit | IntUnder
| FracStart (had_int : bool) | FracDigit | FracUnder.

Definition digit_val (c : ascii) : Z := Z.of_nat (nat_of_ascii c - 48).

(** [mant] is the number read so far without its decimal point,
    [fd] the number of digits after the point *)
Fixpoint scan (s : st) (mant : Z) (fd : nat) (t : string) : option (Z * nat) :=
  match t with
  | "" =>
      match s with
      | IntDigit | FracDigit | FracStart true => Some (mant, fd)
      | _ => None
      end
  | String c t' =>
      match s with
      | IntStart =>
          if is_digit c then scan IntDigit (10 * mant + digit_val c) fd t'
          else if Ascii.eqb c "." then scan (FracStart false) mant fd t'
          else None
      | IntDigit =>
          if is_digit c then scan IntDigit (10 * mant + digit_val c) fd t'
          else if Ascii.eqb c "_" then scan IntUnder mant fd t'
          else if Ascii.eqb c "." then scan (FracStart true) mant fd t'
          else None
      | IntUnder =>
          if is_digit c then scan IntDigit (10 * mant + digit_val c) fd t'
          else None
      | FracStart _ | FracUnder =>
          if is_digit c then scan FracDigit (10 * mant + digit_val c) (S fd) t'
          else None
      | FracDigit =>
          if is_digit c then scan FracDigit (10 * mant + digit_val c) (S fd) t'
          else if Ascii.eqb c "_" then scan FracUnder mant fd t'
          else None
      end
  end.

Definition unsigned (t : string) : option Q :=
  match scan IntStart 0 0 t with
  | Some (m, fd) => Some (Qred (m # Pos.of_nat (10 ^ fd)))
  | None => None
  end.

(** the white space [float] skips at both ends: TAB, LF, VT, FF, CR and
    the space (not the four separators [str.strip] also removes) *)
Definition is_blank (c : ascii) : bool :=
  let n := nat_of_ascii c in
  (((9 <=? n) && (n <=? 13)) || (n =? 32))%nat.

Fixpoint ltrim (s : string) : string :=
  match s with
  | "" => ""
  | String c s' => if is_blank c then ltrim s' else s
  end.

Fixpoint rtrim (s : string) : string :=
  match s with
  | "" => ""
  | String c s' =>
      match rtrim s' with
      | "" => if is_blank c then "" else String c ""
      | r => String c r
      end
  end.

Definition float (s : string) : result Q :=
  let t := rtrim (ltrim s) in
  let r :=
    match t with
    | String c t' =>
        if Ascii.eqb c "-" then option_map Qopp (unsigned t')
        else if Ascii.eqb c "+" then unsigned t'
        else unsigned t
    | "" => None
    end in
  match r with
  | Some q => inr q
  | None => inl (ValueError "could not convert string to float")
  end.

End PyFloat.

(** ** [json.loads] *)

Module Json.

(** The structured value [json.loads] builds.  A number keeps its
    literal, an object is the list of its members in insertion order
    (a Python [dict]). *)
Inductive json : Type :=
| JNull
| JBool (b : bool)
| JNum (literal : string)
| JStr (s : string)
| JArr (items : list json)
| JObj (members : list (string * json)).

Inductive token : Type :=
| TLBrace | TRBrace | TLBrack | TRBrack | TColon | TComma
| TStr (s : string)
| TWord (w : string).

Inductive lex_mode : Type :=
| Top
| InWord (w : string)
| InStr (s : string)
| InEsc (s : string).

Definition dquote : ascii := "034"%char.

Definition is_ws (c : ascii) : bool :=
  List.existsb (Ascii.eqb c) [" "; "009"; "010"; "013"]%char.

Definition punct (c : ascii) : option token :=
  if Ascii.eqb c "{" then Some TLBrace
  else if Ascii.eqb c "}" then Some TRBrace
  else if Ascii.eqb c "[" then Some TLBrack
  else if Ascii.eqb c "]" then Some TRBrack
  else if Ascii.eqb c ":" then Some TColon
  else if Ascii.eqb c "," then Some TComma
  else None.

Definition escape (c : ascii) : option ascii :=
  if Ascii.eqb c dquote then Some dquote
  else if Ascii.eqb c "\" then Some "\"%char
  else if Ascii.eqb c "/" then Some "/"%char
  else if Ascii.eqb c "b" then Some "008"%char
  else if Ascii.eqb c "f" then Some "012"%char
  else if Ascii.eqb c "n" then Some "010"%char
  else if Ascii.eqb c "r" then Some "013"%char
  else if Ascii.eqb c "t" then Some "009"%char
  else None.

Definition cons_tok (t : token) (r : result (list token)) : result (list token) :=
  match r with
  | inr ts => inr (t :: ts)
  | inl e => inl e
  end.

Fixpoint lex (m : lex_mode) (s : string) : result (list token) :=
  match s with
  | "" =>
      match m with
      | Top => inr []
      | InWord w => inr [TWord w]
      | InStr _ | InEsc _ => inl JSONDecodeError
      end
  | String c s' =>
      match m with
      | Top =>
          if is_ws c then lex Top s'
          else if Ascii.eqb c dquote then lex (InStr "") s'
          else match punct c with
               | Some t => cons_tok t (lex Top s')
               | None => lex (InWord (String c "")) s'
               end
      | InWord w =>
          if is_ws c then cons_tok (TWord w) (lex Top s')
          else if Ascii.eqb c dquote then inl JSONDecodeError
          else match punct c with
               | Some t => cons_tok (TWord w) (cons_tok t (lex Top s'))
               | None => lex (InWord (PyFormat.snoc w c)) s'
               end
      | InStr acc =>
          if Ascii.eqb c dquote then cons_tok (TStr acc) (lex Top s')
          else if Ascii.eqb c "\" then lex (InEsc acc) s'
          else if (nat_of_ascii c <? 32)%nat then inl JSONDecodeError
          else lex (InStr (PyFormat.snoc acc c)) s'
      | InEsc acc =>
          if Ascii.eqb c "u" then inl (NotModelled "unicode escape")
          else match escape c with
               | Some d => lex (InStr (PyFormat.snoc acc d)) s'
               | None => inl JSONDecodeError
               end
      end
  end.

(** the JSON number grammar: an optional minus, an integer part without
    a leading zero, an optional fraction, an optional exponent *)
Inductive num_st : Type :=
| NStart | NMinus | NZero | NInt | NDot | NFrac | NExp | NExpSign | NExpDigit.

Fixpoint number_go (st : num_st) (s : string) : bool :=
  match s with
  | "" =>
      match st with
      | NZero | NInt | NFrac | NExpDigit => true
      | _ => false
      end
  | String c s' =>
      let e := Ascii.eqb c "e" || Ascii.eqb c "E" in
      match st with
      | NStart =>
          if Ascii.eqb c "-" then number_go NMinus s'
          else if Ascii.eqb c "0" then number_go NZero s'
          else if is_digit c then number_go NInt s'
          else false
      | NMinus =>
          if Ascii.eqb c "0" then number_go NZero s'
          else if is_digit c then number_go NInt s'
          else false
      | NZero =>
          if Ascii.eqb c "." then number_go NDot s'
          else if e then number_go NExp s'
          else false
      | NInt =>
          if is_digit c then number_go NInt s'
          else if Ascii.eqb c "." then number_go NDot s'
          else if e then number_go NExp s'
          else false
      | NDot => if is_digit c then number_go NFrac s' else false
      | NFrac =>
          if is_digit c then number_go NFrac s'
          else if e then number_go NExp s'
          else false
      | NExp =>
          if Ascii.eqb c "+" || Ascii.eqb c "-" then number_go NExpSign s'
          else if is_digit c then number_go NExpDigit s'
          else false
      | NExpSign | NExpDigit =>
          if is_digit c then number_go NExpDigit s' else false
      end
  end.

Definition word (w : string) : option json :=
  if String.eqb w "null" then Some JNull
  else if String.eqb w "true" then Some (JBool true)
  else if String.eqb w "false" then Some (JBool false)
  else if mem w ["NaN"; "Infinity"; "-Infinity"] then Some (JNum w)
  else if number_go NStart w then Some (JNum w)
  else None.

(** [d[k] = v] on a [dict]: a key already present keeps its place *)
Fixpoint dict_set (k : string) (v : json) (d : list (string * json)) : list (string * json) :=
  match d with
  | [] => [(k, v)]
  | (k', v') :: d' => if String.eqb k k' then (k, v) :: d' else (k', v') :: dict_set k v d'
  end.

Fixpoint parse_value (fuel : nat) (ts : list token) : option (json * list token) :=
  match fuel with
  | O => None
  | S f =>
      match ts with
      | TStr s :: r => Some (JStr s, r)
      | TWord w :: r => option_map (fun j => (j, r)) (word w)
      | TLBrack :: TRBrack :: r => Some (JArr [], r)
      | TLBrack :: r => parse_items f r []
      | TLBrace :: TRBrace :: r => Some (JObj [], r)
      | TLBrace :: r => parse_members f r []
      | _ => None
      end
  end
with parse_items (fuel : nat) (ts : list token) (acc : list json) : option (json * list token) :=
  match fuel with
  | O => None
  | S f =>
      match parse_value f ts with
      | Some (v, TComma :: r) => parse_items f r (acc ++ [v])
      | Some (v, TRBrack :: r) => Some (JArr (acc ++ [v]), r)
      | _ => None
      end
  end
with parse_members (fuel : nat) (ts : list token) (acc : list (string * json)) : option (json * list token) :=
  match fuel with
  | O => None
  | S f =>
      match ts with
      | TStr k :: TColon :: r =>
          match parse_value f r with
          | Some (v, TComma :: r') => parse_members f r' (dict_set k v acc)
          | Some (v, TRBrace :: r') => Some (JObj (dict_set k v acc), r')
          | _ => None
          end
      | _ => None
      end
  end.

(** [json.loads(s)] *)
Definition loads (s : string) : result json :=
  match lex Top s with
  | inl e => inl e
  | inr ts =>
      match parse_value (2 * List.length ts + 2) ts with
      | Some (v, []) => inr v
      | _ => inl JSONDecodeError
      end
  end.

End Json.

(** ** Arguments, external calls and the state of [read] *)

(** The variable [path] of [read]: the string it was given, later the
    cache subdirectory, or an in-memory [BytesIO] with its content. *)
Inductive pathv : Type :=
| PStr (p : string)
| PBytesIO (content : string).

(** [engine]: a string or a callable (named here, to tell callables apart) *)
Inductive engine_arg : Type :=
| EngStr (s : string)
| EngCallable (name : string).

(** [cache]: the object [False], or any other value, given by what
    [str] returns for it (a string token is its own rendering) *)
Inductive cache_arg : Type :=
| CacheFalse
| CacheVal (rendering : string).

Inductive sheet_arg : Type :=
| SheetIndex (i : Z)
| SheetName (s : string).

Inductive origin : Type := S3 | Http | Other.

Record Args : Type := {
  a_path : string;
  a_extension : option string;
  a_parse : bool;
  a_remove_comments : bool;
  a_sep : string;
  a_sheet_name : sheet_arg;
  a_engine : engine_arg;
  a_credentials : string;
  a_profile_name : option string;
  a_cache : cache_arg;
  a_cache_name : option string;
  a_verbose : bool;
  a_kwargs : gmap string string
}.

(** The table decoders are outside the program: a call is recorded with
    its arguments, and its outcome (the table, or the error the decoder
    raises, which [read] does not catch) is the outcome of [read]. *)
Inductive backend_call : Type :=
| pd_read_csv (p : pathv) (sep : string) (kw : gmap string string)
| pd_read_excel (p : pathv) (sheet : sheet_arg) (engine : engine_arg) (kw : gmap string string)
| pd_read_json (p : pathv) (kw : gmap string string)
| pd_read_parquet (p : pathv)
| pq_ParquetDataset (p : pathv) (kw : gmap string string)
| fastparquet_ParquetFile (p : pathv) (kw : gmap string string)
| call_engine (name : string) (p : pathv) (kw : gmap string string)
| feather_read_table (p : pathv) (kw : gmap string string).

(** What [read] returns: the list [data] was initialised with, a string,
    the outcome of a call to a table decoder, or a decoded JSON value. *)
Inductive value : Type :=
| VList (l : list string)
| VStr (s : string)
| VTable (c : backend_call)
| VJson (j : Json.json).

(** The calls that leave the function, in the order they are made. *)
Inductive event : Type :=
| EvSession (profile : option string)
| EvGetConfig (credentials : string)
| EvVerbose (msg : string) (verbose : bool)
| EvGetObject (bucket key : string)
| EvListObjects (bucket prefix : string)
| EvDownload (bucket key dest : string)
| EvDataFolder
| EvListdir (p : string)
| EvFileAge (p fmt : string)
| EvWalk (p : string)
| EvRemove (p : string)
| EvMakedirs (p : string)
| EvOpen (p : string)
| EvUrlopen (url : string)
| EvPrint (s : string)
| EvBackend (c : backend_call).

(** A directory: file names with their content, in listing order. *)
Definition dir : Type := list (string * string).

(** The mutable part of the world: the subdirectories of the cache
    root, by name, each a flat directory of regular files, and the
    trace of external calls.  The names are single path components, as
    the digests of line 122 are.  A [cache_name] that holds a ['/'], or
    is ['.'] or ['..'], names a directory that is not an entry of the
    cache root; this flat view does not represent it, and what is
    stated below about the content of the cache is stated for names
    that satisfy [simple_name]. *)
Record St : Type := {
  st_cache : list (string * dir);
  st_log : list event
}.

(** The part of the world [read] only consults. *)
Record Env : Type := {
  (* [boto3.session.Session(profile_name=...)] and the two handles *)
  env_session : option string -> option exn;
  (* [_get_config(credentials)] *)
  env_get_config : string -> option exn;
  (* the buckets: the objects of each, key and body, in listing order *)
  env_s3 : list (string * list (string * string));
  (* [_pycof_folders('data')] *)
  env_data_path : string;
  (* [hashlib.sha224(bytes(path, 'utf-8')).hexdigest()] *)
  env_sha224 : string -> string;
  (* [file_age(path, format=fmt)] *)
  env_file_age : string -> string -> result Q;
  (* the regular files [open] can read, by path *)
  env_files : list (string * string);
  (* the pages [urllib.request.urlopen] can fetch *)
  env_http : list (string * string)
}.

Fixpoint assoc {A} (k : string) (l : list (string * A)) : option A :=
  match l with
  | [] => None
  | (k', v) :: l' => if String.eqb k k' then Some v else assoc k l'
  end.

(** [os.path.join(a, b)] *)
Definition os_path_join (a b : string) : string :=
  if startswith b "/" then b
  else if String.eqb a "" then b
  else if String.eqb (drop (String.length a - 1) a) "/" then a +:+ b
  else a +:+ "/" +:+ b.

(** ** The state-and-exception monad *)

Definition M (A : Type) : Type := St -> St * result A.

Definition ret {A} (x : A) : M A := fun s => (s, inr x).

Definition raise {A} (e : exn) : M A := fun s => (s, inl e).

Definition bind {A B} (m : M A) (k : A -> M B) : M B :=
  fun s =>
    match m s with
    | (s', inr x) => k x s'
    | (s', inl e) => (s', inl e)
    end.

Definition emit (e : event) : M unit :=
  fun s => ({| st_cache := st_cache s; st_log := st_log s ++ [e] |}, inr tt).

Definition get_cache : M (list (string * dir)) := fun s => (s, inr (st_cache s)).

Definition put_cache (c : list (string * dir)) : M unit :=
  fun s => ({| st_cache := c; st_log := st_log s |}, inr tt).

Definition lift {A} (r : result A) : M A :=
  match r with
  | inr x => ret x
  | inl e => raise e
  end.

Declare Scope read_scope.
Delimit Scope read_scope with read.
Notation "x <- m ;; k" := (bind m (fun x => k))
  (at level 100, m at next level, k at level 200, right associativity) : read_scope.
Notation "m ;; k" := (bind m (fun _ => k))
  (at level 100, k at level 200, right associativity) : read_scope.
Local Open Scope read_scope.

(** a [for] loop whose body updates the loop-carried variable [acc] *)
Fixpoint for_each {A B} (l : list A) (body : A -> B -> M B) (acc : B) : M B :=
  match l with
  | [] => ret acc
  | x :: l' => acc' <- body x acc ;; for_each l' body acc'
  end.

(** ** The function [read] *)

Section Read.

Variable env : Env.

(** *** Classification (lines 73-80) *)

(** [ext = path.split('.')[-1] if extension is None else extension] *)
Definition initial_ext (path : string) (extension : option string) : string :=
  match extension with
  | None => split_last "." path
  | Some e => e
  end.

Definition classify_origin (path : string) : origin :=
  if startswith path "s3://" then S3
  else if startswith path "http" then Http
  else Other.

(** *** The object store and the cache directory *)

Definition verbose_display (msg : string) (verbose : bool) : M unit :=
  emit (EvVerbose msg verbose).

(** lines 85-97: the session of the named profile; when the profile is
    not found, the credentials of the configuration *)
Definition authenticate (a : Args) : M unit :=
  emit (EvSession (a_profile_name a)) ;;
  match env_session env (a_profile_name a) with
  | None => ret tt
  | Some ProfileNotFound =>
      emit (EvGetConfig (a_credentials a)) ;;
      match env_get_config env (a_credentials a) with
      | None => ret tt
      | Some e => raise e
      end
  | Some (OSError kind) =>
      if String.eqb kind "FileNotFoundError" then raise ConnectionError
      else raise (OSError kind)
  | Some e => raise e
  end.

Definition bucket_of (path : string) : string :=
  List.hd "" (split "/" (replace "s3://" "" path)).

Definition folder_path_of (path : string) : string :=
  join "/" (List.tl (split "/" (replace "s3://" "" path))).

Definition streamable : list string :=
  ["csv"; "txt"; "parq"; "parquet"; "fea"; "feather"; "html"; "json"; "js";
   "py"; "sh"; "xls"; "xlsx"].

(** [s3.get_object(Bucket=bucket, Key=key)['Body'].read()] *)
Definition get_object (bucket key : string) : M string :=
  emit (EvGetObject bucket key) ;;
  match assoc bucket (env_s3 env) with
  | None => raise (ClientError "NoSuchBucket")
  | Some objs =>
      match assoc key objs with
      | None => raise (ClientError "NoSuchKey")
      | Some body => ret body
      end
  end.

(** [s3bucket.objects.filter(Prefix=prefix)]: the keys, in listing order *)
Definition list_objects (bucket prefix : string) : M (list string) :=
  emit (EvListObjects bucket prefix) ;;
  match assoc bucket (env_s3 env) with
  | None => raise (ClientError "NoSuchBucket")
  | Some objs =>
      ret (List.filter (fun k => startswith k prefix) (List.map fst objs))
  end.

(** writing the file [name] in a directory: a file of that name is
    overwritten in place, a new one comes last in the listing *)
Fixpoint put_file (name body : string) (d : dir) : dir :=
  match d with
  | [] => [(name, body)]
  | (n, b) :: d' =>
      if String.eqb name n then (name, body) :: d' else (n, b) :: put_file name body d'
  end.

Fixpoint set_dir (name : string) (d : dir) (c : list (string * dir)) : list (string * dir) :=
  match c with
  | [] => []
  | (n, d0) :: c' =>
      if String.eqb name n then (n, d) :: c' else (n, d0) :: set_dir name d c'
  end.

(** [s3bucket.download_file(key, os.path.join(path, name))], where
    [path] is the cache subdirectory [sub], a single path component *)
Definition download_file (bucket key path sub name : string) : M unit :=
  emit (EvDownload bucket key (os_path_join path name)) ;;
  match assoc bucket (env_s3 env) with
  | None => raise (ClientError "NoSuchBucket")
  | Some objs =>
      match assoc key objs with
      | None => raise (ClientError "404")
      | Some body =>
          if String.eqb name "" then raise (OSError "IsADirectoryError")
          else
            c <- get_cache ;;
            match assoc sub c with
            | None => raise (OSError "FileNotFoundError")
            | Some d => put_cache (set_dir sub (put_file name body d) c)
            end
      end
  end.

(** [os.listdir(data_path)]: the names of the subdirectories, single
    path components *)
Definition listdir_root : M (list string) :=
  emit (EvListdir (env_data_path env)) ;;
  c <- get_cache ;;
  ret (List.map fst c).

(** [os.listdir(path)] for the cache subdirectory [sub] *)
Definition listdir_sub (path sub : string) : M (list string) :=
  emit (EvListdir path) ;;
  c <- get_cache ;;
  match assoc sub c with
  | None => raise (OSError "FileNotFoundError")
  | Some d => ret (List.map fst d)
  end.

(** [os.remove(os.path.join(root, name))] *)
Definition remove_file (path sub name : string) : M unit :=
  emit (EvRemove (os_path_join path name)) ;;
  c <- get_cache ;;
  match assoc sub c with
  | None => raise (OSError "FileNotFoundError")
  | Some d =>
      put_cache (set_dir sub (List.filter (fun f => negb (String.eqb (fst f) name)) d) c)
  end.

(** lines 142-144: [os.walk] over a flat directory yields it once (a
    subdirectory of [sub], which only a [cache_name] with a ['/'] can
    create, is outside this view) *)
Definition remove_all (path sub : string) : M unit :=
  emit (EvWalk path) ;;
  c <- get_cache ;;
  match assoc sub c with
  | None => ret tt
  | Some d =>
      for_each (List.map fst d) (fun name _ => remove_file path sub name) tt
  end.

(** [os.makedirs(path, exist_ok=True)] for the cache subdirectory
    [sub], a single path component: one new entry of the cache root *)
Definition makedirs (path sub : string) : M unit :=
  emit (EvMakedirs path) ;;
  c <- get_cache ;;
  match assoc sub c with
  | Some _ => ret tt
  | None => put_cache (c ++ [(sub, [])])
  end.

(** *** The freshness token (lines 112-119) *)

(** [str(cache_time)], with [cache_time = 0. if cache is False else cache] *)
Definition cache_time_str (c : cache_arg) : string :=
  match c with
  | CacheFalse => "0.0"
  | CacheVal r => r
  end.

Definition str_c_time (c : cache_arg) : string :=
  replace " " "" (lower (cache_time_str c)).

(** [''.join(re.findall('[^a-z]', str_c_time))] *)
Definition numeric_part (s : string) : string :=
  filter_chars (fun ch => negb (is_lower ch)) s.

(** [''.join(re.findall('[a-z]', str_c_time))] *)
Definition alpha_part (s : string) : string := filter_chars is_lower s.

(** the pair [(c_time, age_fmt)] *)
Definition parse_freshness (c : cache_arg) : result (Q * string) :=
  match PyFloat.float (numeric_part (str_c_time c)) with
  | inr c_time => inr (c_time, alpha_part (str_c_time c))
  | inl e => inl e
  end.

(** [file_age(path, format=age_fmt)] *)
Definition file_age (path fmt : string) : M Q :=
  emit (EvFileAge path fmt) ;;
  lift (env_file_age env path fmt).

(** [a < b] *)
Definition Qltb (a b : Q) : bool := negb (Qle_bool b a).

(** *** The cache (lines 121-161) *)

Definition known_data_ext : list string :=
  [".parquet"; ".parq"; ".feather"; ".fea"; ".csv"; ".json"; ".txt"].

(** the test of line 147 *)
Definition skipped_on_refresh (folder_path key : string) : bool :=
  String.eqb key folder_path
  || negb (List.existsb (fun e => contains e key) known_data_ext).

(** the test of line 158 *)
Definition skipped_on_first_download (folder_path key : string) : bool :=
  String.eqb key folder_path.

(** the loop of lines 146-151 and the loop of lines 157-161, which
    differ in the test [skip] only; [ext] is the loop-carried
    variable *)
Definition download_loop (skip : string -> string -> bool)
    (bucket folder_path path sub : string) (ext : string) : M string :=
  keys <- list_objects bucket folder_path ;;
  for_each keys
    (fun key ext =>
       if skip folder_path key then ret ext
       else
         download_file bucket key path sub (split_last "/" key) ;;
         ret (split_last "." key))
    ext.

(** lines 136-137 *)
Definition cache_hit (a : Args) (path sub : string) : M string :=
  names <- listdir_sub path sub ;;
  match first names with
  | None => raise IndexError
  | Some f =>
      verbose_display "Data file available in cache" (a_verbose a) ;;
      ret (split_last "." f)
  end.

(** lines 139-151 *)
Definition cache_refresh (a : Args) (bucket folder_path path sub ext : string) : M string :=
  verbose_display "Updating data in cache" (a_verbose a) ;;
  remove_all path sub ;;
  download_loop skipped_on_refresh bucket folder_path path sub ext.

(** lines 153-161 *)
Definition cache_first_download (a : Args) (bucket folder_path path sub ext : string)
  : M string :=
  verbose_display "Downloading and caching data" (a_verbose a) ;;
  makedirs path sub ;;
  download_loop skipped_on_first_download bucket folder_path path sub ext.

(** line 122 *)
Definition cache_file_name (a : Args) : string :=
  match a_cache_name a with
  | Some n => if String.eqb n "" then replace "-" "m" (env_sha224 env (a_path a)) else n
  | None => replace "-" "m" (env_sha224 env (a_path a))
  end.

(** lines 112-161: the branch that goes through the cache; the result
    is the new [path] and the new [ext] *)
Definition materialize (a : Args) (bucket folder_path ext : string) : M (pathv * string) :=
  ft <- lift (parse_freshness (a_cache a)) ;;
  let c_time := fst ft in
  let age_fmt := snd ft in
  let file_name := cache_file_name a in
  emit EvDataFolder ;;
  let data_path := env_data_path env in
  let path := os_path_join data_path file_name in
  names <- listdir_root ;;
  ext' <-
    (if mem file_name names then
       age <- file_age path age_fmt ;;
       if Qltb age c_time then cache_hit a path file_name
       else cache_refresh a bucket folder_path path file_name ext
     else cache_first_download a bucket folder_path path file_name ext) ;;
  ret (PStr path, ext').

(** lines 84-161 *)
Definition s3_stage (a : Args) (ext : string) : M (pathv * string) :=
  authenticate a ;;
  let bucket := bucket_of (a_path a) in
  let folder_path := folder_path_of (a_path a) in
  if mem (lower ext) streamable then
    verbose_display "Loading the data from S3 directly" (a_verbose a) ;;
    body <- get_object bucket folder_path ;;
    ret (PBytesIO body, ext)
  else materialize a bucket folder_path ext.

(** *** Reading text (the [open] and [BytesIO] tests of each branch) *)

Definition is_cache_dir (p : string) (c : list (string * dir)) : bool :=
  List.existsb (fun e => String.eqb p (os_path_join (env_data_path env) (fst e))) c.

(** [with open(path) as f: f.read()] *)
Definition open_read (path : pathv) : M string :=
  match path with
  | PBytesIO _ => raise TypeError
  | PStr p =>
      emit (EvOpen p) ;;
      c <- get_cache ;;
      if is_cache_dir p c then raise (OSError "IsADirectoryError")
      else match assoc p (env_files env) with
           | Some txt => ret txt
           | None => raise (OSError "FileNotFoundError")
           end
  end.

(** [path.read().decode()] when [path] is a [BytesIO], [open] otherwise *)
Definition read_text (path : pathv) : M string :=
  match path with
  | PBytesIO body => ret body
  | PStr _ => open_read path
  end.

(** [urllib.request.urlopen(path).read().decode("utf-8")] *)
Definition urlopen (url : string) : M string :=
  emit (EvUrlopen url) ;;
  match assoc url (env_http env) with
  | Some txt => ret txt
  | None => raise (OSError "URLError")
  end.

(** *** The line cleaners (lines 177-186, 199-207, 216-224, 232-241, 255-263) *)

(** the body of the loop up to the test [l_striped != '']:
    [strip], then [format] when [parse], then the removal of comments *)
Definition clean_line (parse : bool) (kw : gmap string string)
    (uncomment : option (string -> string)) (line : string) : result string :=
  let l_striped := strip line in
  match (if parse then PyFormat.format kw l_striped else inr l_striped) with
  | inl e => inl e
  | inr l =>
      inr (match uncomment with
           | Some f => f l
           | None => l
           end)
  end.

(** the loop [for line in file.split('\n')] with [data += [l_striped]] *)
Fixpoint clean_lines (step : string -> result string) (lines data : list string)
  : result (list string) :=
  match lines with
  | [] => inr data
  | line :: rest =>
      match step line with
      | inl e => inl e
      | inr l => clean_lines step rest (if String.eqb l "" then data else data ++ [l])
      end
  end.

Definition cleaned (step : string -> result string) (file : string) : result string :=
  match clean_lines step (split nl file) [] with
  | inr data => inr (join " " data)
  | inl e => inl e
  end.

Definition when (b : bool) (f : string -> string) : option (string -> string) :=
  if b then Some f else None.

(** line 182; the value of [re.sub] on line 183 is dropped *)
Definition uncomment_sql (l : string) : string := split_first "--" l.
(** line 204 *)
Definition uncomment_html (l : string) : string := remove_spans "<!--" "-->" l.
(** line 221 *)
Definition uncomment_script (l : string) : string := split_first "#" l.
(** line 237; the value of [re.sub] on line 238 is dropped *)
Definition uncomment_js (l : string) : string := split_first "//" l.
(** lines 258-260 *)
Definition uncomment_jsonc (l : string) : string :=
  split_first "#" (split_first "//" (remove_spans "/*" "*/" l)).

Definition clean_sql (a : Args) : string -> result string :=
  cleaned (clean_line (a_parse a) (a_kwargs a) (when (a_remove_comments a) uncomment_sql)).
Definition clean_html (a : Args) : string -> result string :=
  cleaned (clean_line (a_parse a) (a_kwargs a) (when (a_remove_comments a) uncomment_html)).
Definition clean_script (a : Args) : string -> result string :=
  cleaned (clean_line (a_parse a) (a_kwargs a) (when (a_remove_comments a) uncomment_script)).
Definition clean_js (a : Args) : string -> result string :=
  cleaned (clean_line (a_parse a) (a_kwargs a) (when (a_remove_comments a) uncomment_js)).

(** lines 255-265: the text handed to [json.loads]; the lines are not
    formatted *)
Definition jsonc_content (remove_comments : bool) (file : string) : result string :=
  match cleaned (clean_line false ∅ (when remove_comments uncomment_jsonc)) file with
  | inr str_content => inr (replace ", }" "}" str_content)
  | inl e => inl e
  end.

(** lines 249-266 on the text of the file *)
Definition read_jsonc (remove_comments : bool) (file : string) : result Json.json :=
  match jsonc_content remove_comments file with
  | inr str_content => Json.loads str_content
  | inl e => inl e
  end.

(** the lines a text file yields when iterated, each with its line break *)
Fixpoint file_lines (s : string) : list string :=
  match s with
  | "" => []
  | String c s' =>
      if Ascii.eqb c "010" then String c "" :: file_lines s'
      else match file_lines s' with
           | [] => [String c ""]
           | h :: t => String c h :: t
           end
  end.

(** [print(s)] *)
Definition print (s : string) : M unit := emit (EvPrint s).

(** *** The dispatch on the extension (lines 163-305) *)

Definition backend (c : backend_call) : M value :=
  emit (EvBackend c) ;; ret (VTable c).

Definition engine_is_auto (e : engine_arg) : bool :=
  match e with
  | EngStr s => String.eqb s "auto"
  | EngCallable _ => false
  end.

Definition text_value (r : result string) : M value :=
  s <- lift r ;; ret (VStr s).

Definition read_only_exts : list string := ["readonly"; "read-only"; "ro"].

Definition dispatch (a : Args) (orgn : origin) (path : pathv) (ext : string) : M value :=
  let e := lower ext in
  if mem e ["csv"; "txt"] then
    backend (pd_read_csv path (a_sep a) (a_kwargs a))
  else if mem e ["xls"; "xlsx"] then
    let _engine := if engine_is_auto (a_engine a) then EngStr "openpyxl" else a_engine a in
    backend (pd_read_excel path (a_sheet_name a) _engine (a_kwargs a))
  else if mem e ["sql"] then
    file <- read_text path ;; text_value (clean_sql a file)
  else if mem e ["html"] then
    file <- (match path, orgn with
             | PBytesIO body, _ => ret body
             | PStr p, Http => urlopen p
             | PStr _, _ => open_read path
             end) ;;
    text_value (clean_html a file)
  else if mem e ["py"; "sh"] then
    file <- read_text path ;; text_value (clean_script a file)
  else if mem e ["js"] then
    file <- read_text path ;; text_value (clean_js a file)
  else if mem e ["json"] then
    match a_engine a with
    | EngCallable _ => raise AttributeError
    | EngStr s =>
        if mem (lower s) ["json"] then
          file <- open_read path ;;
          j <- lift (Json.loads file) ;;
          ret (VJson j)
        else backend (pd_read_json path (a_kwargs a))
    end
  else if mem e ["jsonc"] then
    file <- read_text path ;;
    j <- lift (read_jsonc (a_remove_comments a) file) ;;
    ret (VJson j)
  else if mem e ["parq"; "parquet"] then
    let _engine := if engine_is_auto (a_engine a) then EngStr "pyarrow" else a_engine a in
    match orgn with
    | S3 => backend (pd_read_parquet path)
    | _ =>
        match _engine with
        | EngStr s =>
            if mem (lower s) ["py"; "pa"; "pyarrow"] then
              backend (pq_ParquetDataset path (a_kwargs a))
            else if mem (lower s) ["fp"; "fastparquet"] then
              (* the table is bound to [table]; [data] stays the empty list *)
              emit (EvBackend (fastparquet_ParquetFile path (a_kwargs a))) ;;
              ret (VList [])
            else raise (ValueError "Engine value not allowed")
        | EngCallable name => backend (call_engine name path (a_kwargs a))
        end
    end
  else if mem e ["fea"; "feather"] then
    backend (feather_read_table path (a_kwargs a))
  else if mem e read_only_exts then
    match path with
    | PBytesIO body => print body ;; ret (VList [])
    | PStr _ =>
        file <- open_read path ;;
        for_each (file_lines file) (fun line _ => print (rstrip line)) tt ;;
        ret (VList [])
    end
  else
    file <- open_read path ;;
    ret (VStr file).

(** *** [read] (lines 30-305) *)

(** lines 73-161: the values of [path] and [ext] at line 163 *)
Definition locate (a : Args) : M (pathv * string) :=
  let ext := initial_ext (a_path a) (a_extension a) in
  match classify_origin (a_path a) with
  | S3 => s3_stage a ext
  | _ => ret (PStr (a_path a), ext)
  end.

Definition read (a : Args) : M value :=
  pe <- locate a ;;
  dispatch a (classify_origin (a_path a)) (fst pe) (snd pe).

End Read.

(** ** Definitions used to state the properties *)

(** [c not in s] for a character *)
Definition lacks (c : ascii) (s : string) : bool :=
  forall_chars (fun x => negb (Ascii.eqb x c)) s.


(** the argument record with another value for [cache] *)
Definition with_cache (a : Args) (c : cache_arg) : Args :=
  {| a_path := a_path a; a_extension := a_extension a; a_parse := a_parse a;
     a_remove_comments := a_remove_comments a; a_sep := a_sep a;
     a_sheet_name := a_sheet_name a; a_engine := a_engine a;
     a_credentials := a_credentials a; a_profile_name := a_profile_name a;
     a_cache := c; a_cache_name := a_cache_name a; a_verbose := a_verbose a;
     a_kwargs := a_kwargs a |}.

(** the calls that consult or change the cache directory, and the
    calls that fill it from the object store *)
Definition cache_event (e : event) : bool :=
  match e with
  | EvDataFolder | EvListdir _ | EvFileAge _ _ | EvWalk _ | EvRemove _
  | EvMakedirs _ | EvDownload _ _ _ | EvListObjects _ _ => true
  | _ => false
  end.

(** The parsing of the freshness token as the specification words it:
    lowercase, drop all white space, the digits and the decimal point
    are the magnitude, the letters are the unit. *)
Definition spec_parse_freshness (token : string) : result (Q * string) :=
  let t := filter_chars (fun c => negb (is_space c)) (lower token) in
  match PyFloat.float (filter_chars (fun c => is_digit c || Ascii.eqb c ".") t) with
  | inr m => inr (m, filter_chars (fun c => is_lower c || is_upper c) t)
  | inl e => inl e
  end.

(** tokens made of letters, digits, decimal points and spaces *)
Definition plain_token (token : string) : bool :=
  forall_chars
    (fun c => is_lower c || is_upper c || is_digit c || Ascii.eqb c "." || Ascii.eqb c " ")
    token.

(** the text of Scenario B *)
Definition script_text : string :=
  "x = 1  # set x" +:+ nl +:+ nl +:+ "y = 2" +:+ nl.

(** ** Concrete worlds for the examples *)

(** the arguments of a call [read(path)], every other parameter at its
    default *)
Definition default_args (path : string) : Args :=
  {| a_path := path; a_extension := None; a_parse := true; a_remove_comments := true;
     a_sep := ","; a_sheet_name := SheetIndex 0; a_engine := EngStr "auto";
     a_credentials := ""; a_profile_name := None; a_cache := CacheVal "30mins";
     a_cache_name := None; a_verbose := false; a_kwargs := ∅ |}.

(** a machine with the local files [files], a data set of two objects
    and a directory marker in the bucket ["bucket"], and cached files
    that are [age] old in every unit *)
Definition example_env (files : list (string * string)) (age : Q) : Env :=
  {| env_session := fun _ => None;
     env_get_config := fun _ => None;
     env_s3 := [("bucket", [("data.csv", "a,b"); ("set/", ""); ("set/_SUCCESS", "");
                            ("set/part-0.parquet", "PAR1")])];
     env_data_path := "/tmp/pycof/data";
     env_sha224 := fun _ => "d14a028c2a3a2bc9476102bb288234c415a2b01f828ea62ac5b3e42f";
     env_file_age := fun _ _ => inr age;
     env_files := files;
     env_http := [] |}.

Definition empty_state : St := {| st_cache := []; st_log := [] |}.

(** the error [float] raises on a string that is not a number *)
Definition float_error : exn := ValueError "could not convert string to float".

(** the states of the scanner of [float] in which no digit has been read *)
Definition before_digit (s : PyFloat.st) : bool :=
  match s with
  | PyFloat.IntStart | PyFloat.FracStart false => true
  | _ => false
  end.

(** [m] leaves the cache directory as it is and makes only external
    calls that satisfy [P] *)
Definition quiet (P : event -> bool) {A} (m : M A) : Prop :=
  forall st,
    st_cache (fst (m st)) = st_cache st /\
    exists evs, st_log (fst (m st)) = st_log st ++ evs /\ List.forallb P evs = true.

Definition no_cache_event (e : event) : bool := negb (cache_event e).

(** the state after the calls [evs] *)
Definition logged (st : St) (evs : list event) : St :=
  {| st_cache := st_cache st; st_log := st_log st ++ evs |}.

(** the cache subdirectory of a call and its path *)
Definition cache_sub (env : Env) (a : Args) : string := cache_file_name env a.
Definition cache_path (env : Env) (a : Args) : string :=
  os_path_join (env_data_path env) (cache_file_name env a).


(** one download into a directory *)
Definition downloaded (objs : list (string * string)) (d : dir) (key : string) : dir :=
  match assoc key objs with
  | Some body => put_file (split_last "/" key) body d
  | None => d
  end.

(** the directory that results from downloading, into the directory
    [d], the objects of [objs] under [folder_path] that [skip] lets
    through *)
Definition downloads (skip : string -> string -> bool) (objs : list (string * string))
    (folder_path : string) (d : dir) : dir :=
  List.fold_left (downloaded objs)
    (List.filter (fun k => negb (skip folder_path k))
       (List.filter (fun k => startswith k folder_path) (List.map fst objs)))
    d.

(** the argument record with another value for [engine] *)
Definition with_engine (a : Args) (e : engine_arg) : Args :=
  {| a_path := a_path a; a_extension := a_extension a; a_parse := a_parse a;
     a_remove_comments := a_remove_comments a; a_sep := a_sep a;
     a_sheet_name := a_sheet_name a; a_engine := e;
     a_credentials := a_credentials a; a_profile_name := a_profile_name a;
     a_cache := a_cache a; a_cache_name := a_cache_name a; a_verbose := a_verbose a;
     a_kwargs := a_kwargs a |}.

(** the cache key of the examples, and a cache root whose only
    subdirectory is that of this key *)
Definition example_key : string :=
  "d14a028c2a3a2bc9476102bb288234c415a2b01f828ea62ac5b3e42f".

Definition cached_state (files : dir) : St :=
  {| st_cache := [(example_key, files)]; st_log := [] |}.

(** the engine names the parquet branch accepts *)
Definition parquet_engines : list string := ["py"; "pa"; "pyarrow"; "fp"; "fastparquet"].

(** ** JSON with comments, line by line *)





(** a string between double quotes *)
Definition quoted (s : string) : string :=
  String Json.dquote (s +:+ String Json.dquote "").

(** a file with a line comment and a comma before the closing brace,
    without and with a space before the comment, and its comment-free,
    comma-free equivalent *)
Definition jsonc_tight : string :=
  "{" +:+ nl +:+ "  " +:+ quoted "a" +:+ ": 1,// one" +:+ nl +:+ "}".
Definition jsonc_spaced : string :=
  "{" +:+ nl +:+ "  " +:+ quoted "a" +:+ ": 1, // one" +:+ nl +:+ "}".
Definition json_plain : string :=
  "{" +:+ nl +:+ "  " +:+ quoted "a" +:+ ": 1" +:+ nl +:+ "}".


(** ** Definitions for the properties of the remaining code *)

(** the calls a read of a local or HTTP path can make *)
Definition local_event (e : event) : bool :=
  match e with
  | EvOpen _ | EvUrlopen _ | EvPrint _ | EvBackend _ => true
  | _ => false
  end.

(** two calls that differ at most in the parameters of the S3 branch:
    [credentials], [profile_name], [cache], [cache_name], [verbose] *)
Definition same_local_request (a b : Args) : Prop :=
  a_path a = a_path b /\ a_extension a = a_extension b /\ a_parse a = a_parse b /\
  a_remove_comments a = a_remove_comments b /\ a_sep a = a_sep b /\
  a_sheet_name a = a_sheet_name b /\ a_engine a = a_engine b /\
  a_kwargs a = a_kwargs b.

(** every extension a branch of lines 164-293 tests for *)
Definition recognised_exts : list string :=
  ["csv"; "txt"; "xls"; "xlsx"; "sql"; "html"; "py"; "sh"; "js"; "json"; "jsonc";
   "parq"; "parquet"; "fea"; "feather"; "readonly"; "read-only"; "ro"].

(** the value of [ext] after a download loop over [keys] *)
Definition ext_after (skip : string -> string -> bool) (folder_path : string)
    (keys : list string) (ext : string) : string :=
  List.fold_left (fun e key => if skip folder_path key then e else split_last "." key)
    keys ext.

(** the keys a listing of the bucket under [folder_path] yields *)
Definition keys_under (objs : list (string * string)) (folder_path : string) : list string :=
  List.filter (fun k => startswith k folder_path) (List.map fst objs).


(** the text has no replacement field: no brace at all *)
Definition brace_free (s : string) : bool := lacks "{" s && lacks "}" s.

(** a field name [format] looks up among the keyword arguments: not
    empty, not a number, without brace, conversion, specification,
    attribute or index *)
Definition plain_name (name : string) : bool :=
  negb (String.eqb name "") && negb (forall_chars is_digit name)
  && forall_chars
       (fun c => negb (List.existsb (Ascii.eqb c) ["{"; "}"; "!"; ":"; "."; "["]%char))
       name.

(** the calls that go to the object store *)
Definition store_event (e : event) : bool :=
  match e with
  | EvGetObject _ _ | EvListObjects _ _ | EvDownload _ _ _ => true
  | _ => false
  end.

Definition no_store_event (e : event) : bool := negb (store_event e).

(** the argument record with another value for [extension] *)
Definition with_extension (a : Args) (e : option string) : Args :=
  {| a_path := a_path a; a_extension := e; a_parse := a_parse a;
     a_remove_comments := a_remove_comments a; a_sep := a_sep a;
     a_sheet_name := a_sheet_name a; a_engine := a_engine a;
     a_credentials := a_credentials a; a_profile_name := a_profile_name a;
     a_cache := a_cache a; a_cache_name := a_cache_name a; a_verbose := a_verbose a;
     a_kwargs := a_kwargs a |}.

(** the text of a line after the removal of comments, when it is asked for *)
Definition uncommented (uncomment : option (string -> string)) (l : string) : string :=
  match uncomment with
  | Some f => f l
  | None => l
  end.


(** a machine on which no profile is found and the configuration file
    is missing *)
Definition no_credentials_env : Env :=
  {| env_session := fun _ => Some ProfileNotFound;
     env_get_config := fun _ => Some (OSError "FileNotFoundError");
     env_s3 := [];
     env_data_path := "/tmp/pycof/data";
     env_sha224 := fun s => s;
     env_file_age := fun _ _ => inr 0%Q;
     env_files := [];
     env_http := [] |}.

Definition no_url_event (e : event) : bool :=
  match e with
  | EvUrlopen _ => false
  | _ => true
  end.

(** the characters [float] can meet in a token without rejecting it at
    once: letters (they go to the unit), digits, the decimal point, the
    underscore, the signs, and the white space [float] trims *)
Definition float_char (c : ascii) : bool :=
  is_lower c || is_upper c || is_digit c || PyFloat.is_blank c
  || List.existsb (Ascii.eqb c) ["."; "_"; "+"; "-"]%char.

(** the token without its spaces, in lowercase *)
Definition squeezed (token : string) : string :=
  filter_chars (fun c => negb (Ascii.eqb c " ")) (lower token).

(** * Properties *)

(** ** The primitives on small inputs *)

Example split_two_dashes : split "--" "a--b---c--" = ["a"; "b"; "-c"; ""].
Proof. reflexivity. Qed.

Example split_lines : split nl script_text = ["x = 1  # set x"; ""; "y = 2"; ""].
Proof. reflexivity. Qed.

Example strip_both_ends : strip ("  a b " +:+ nl) = "a b".
Proof. reflexivity. Qed.

Example replace_all : replace ", }" "}" "{ a, } , }, }" = "{ a} }}".
Proof. reflexivity. Qed.

Example remove_spans_nearest :
  remove_spans "/*" "*/" "a /* b */ c /*/ d */ e /* f" = "a  c  e /* f".
Proof. reflexivity. Qed.

Example format_fields :
  PyFormat.format (<["c" := "FR"]> ∅) "a {c} {{b}}" = inr "a FR {b}"
  /\ PyFormat.format (<["c" := "FR"]> ∅) "a {d}" = inl (KeyError "d")
  /\ PyFormat.format ∅ "a }" = inl (ValueError "format string").
Proof. repeat split. Qed.

Example float_literals :
  PyFloat.float " 1_0.5 " = inr (21 # 2)
  /\ PyFloat.float "-.5" = inr (- (1 # 2))
  /\ PyFloat.float "1,5" = inl float_error
  /\ PyFloat.float "" = inl float_error
  /\ PyFloat.float (String "028" "5") = inl float_error.
Proof. repeat split. Qed.

Example loads_object :
  Json.loads ("{ " +:+ quoted "a" +:+ ": [1, true, null], " +:+ quoted "a" +:+ ": -2.5e3 }")
  = inr (Json.JObj [("a", Json.JNum "-2.5e3")])
  /\ Json.loads "[1,]" = inl JSONDecodeError.
Proof. repeat split. Qed.

Example os_path_join_cases :
  os_path_join "/tmp/data" "k" = "/tmp/data/k"
  /\ os_path_join "/tmp/data/" "k" = "/tmp/data/k"
  /\ os_path_join "/tmp/data" "/k" = "/k".
Proof. repeat split. Qed.

Example freshness_of_false : parse_freshness CacheFalse = inr (0%Q, "").
Proof. reflexivity. Qed.

Example file_lines_keep_breaks :
  file_lines ("a  " +:+ nl +:+ nl +:+ "b") = ["a  " +:+ nl; nl; "b"].
Proof. reflexivity. Qed.

(** ** Strings *)

Lemma app_nil_l (s : string) : "" +:+ s = s.
Proof. reflexivity. Qed.

Lemma app_cons (a : ascii) (s t : string) : String a s +:+ t = String a (s +:+ t).
Proof. reflexivity. Qed.

Lemma app_nil_r (s : string) : s +:+ "" = s.
Proof. induction s as [|a s IH]; [reflexivity|]. now rewrite app_cons, IH. Qed.

Lemma app_assoc (s t u : string) : (s +:+ t) +:+ u = s +:+ t +:+ u.
Proof. induction s as [|a s IH]; [reflexivity|]. now rewrite !app_cons, IH. Qed.

Ltac str_simpl := rewrite ?app_cons, ?app_nil_l.

Lemma prefix_char (c a : ascii) (s : string) :
  is_prefix (String c "") (String a s) = Ascii.eqb a c.
Proof.
  cbn. rewrite andb_true_r. apply Ascii.eqb_sym.
Qed.

Lemma split_go_not_nil (sep : string) (k : nat) (s : string) : split_go sep k s <> [].
Proof.
  revert k. induction s as [|c s IH]; intros k; simpl; [discriminate|].
  destruct k; [|apply IH].
  destruct (is_prefix sep (String c s)); [discriminate|].
  destruct (split_go sep 0 s); discriminate.
Qed.

Lemma split_char_cons (c a : ascii) (s : string) :
  split (String c "") (String a s) =
  if Ascii.eqb a c then "" :: split (String c "") s
  else match split (String c "") s with
       | h :: t => String a h :: t
       | [] => [String a ""]
       end.
Proof.
  unfold split. cbn [split_go]. rewrite prefix_char. reflexivity.
Qed.

Lemma split_char_lacks (c : ascii) (s : string) :
  lacks c s = true -> split (String c "") s = [s].
Proof.
  induction s as [|a s IH]; intros H; [reflexivity|].
  cbn in H. apply andb_true_iff in H as [Ha Hs].
  rewrite split_char_cons. apply negb_true_iff in Ha. rewrite Ha.
  now rewrite (IH Hs).
Qed.

Lemma split_char_app_tail (c : ascii) (pre suf : string) :
  List.tl (split (String c "") (pre +:+ String c suf)) <> [].
Proof.
  induction pre as [|a pre IH]; str_simpl; rewrite split_char_cons.
  - rewrite Ascii.eqb_refl. cbn. apply split_go_not_nil.
  - destruct (Ascii.eqb a c); [cbn; apply split_go_not_nil|].
    destruct (split (String c "") (pre +:+ String c suf)); [contradiction|exact IH].
Qed.

Lemma last_cons_cons {A} (x y : A) (l : list A) (d : A) :
  List.last (x :: y :: l) d = List.last (y :: l) d.
Proof. reflexivity. Qed.

Lemma split_last_app (c : ascii) (pre suf : string) :
  split_last (String c "") (pre +:+ String c suf) = split_last (String c "") suf.
Proof.
  unfold split_last.
  induction pre as [|a pre IH]; str_simpl; rewrite split_char_cons.
  - rewrite Ascii.eqb_refl.
    pose proof (split_go_not_nil (String c "") 0 suf) as Hne. fold (split (String c "") suf) in Hne.
    destruct (split (String c "") suf); [contradiction|reflexivity].
  - pose proof (split_char_app_tail c pre suf) as Ht.
    destruct (split (String c "") (pre +:+ String c suf)) as [|h [|h' t]];
      [contradiction|contradiction|].
    destruct (Ascii.eqb a c); rewrite <- IH; reflexivity.
Qed.

Lemma forall_chars_impl (p q : ascii -> bool) (s : string) :
  (forall c, p c = true -> q c = true) ->
  forall_chars p s = true -> forall_chars q s = true.
Proof.
  intros Hpq. induction s as [|c s IH]; intros H; [reflexivity|].
  cbn in *. apply andb_true_iff in H as [Hc Hs]. now rewrite (Hpq c Hc), (IH Hs).
Qed.

Lemma forall_filter_self (p : ascii -> bool) (s : string) :
  forall_chars p (filter_chars p s) = true.
Proof.
  induction s as [|c s IH]; [reflexivity|]. cbn [filter_chars].
  destruct (p c) eqn:E; [|exact IH]. cbn [forall_chars]. now rewrite E, IH.
Qed.

(** ** The resolved extension *)

(** C6: the extension [read] starts from is the explicit [extension]
    argument when one is given, whatever it is; otherwise it is the text
    after the last ['.'] of the path, unchanged in case (and the whole
    path when it has no ['.']).  Nothing is checked: the function is
    total. *)
Theorem C6_initial_extension (path : string) :
  (forall e, initial_ext path (Some e) = e) /\
  (forall pre suf,
      path = pre +:+ "." +:+ suf -> lacks "." suf = true ->
      initial_ext path None = suf) /\
  (lacks "." path = true -> initial_ext path None = path).
Proof.
  split; [reflexivity|split].
  - intros pre suf -> Hs. unfold initial_ext.
    change ("." +:+ suf) with (String "." suf).
    rewrite split_last_app. unfold split_last.
    now rewrite (split_char_lacks _ _ Hs).
  - intros Hp. unfold initial_ext, split_last.
    now rewrite (split_char_lacks _ _ Hp).
Qed.

Lemma C6_initial_extension_witness :
  initial_ext "s3://bucket/Path.To/File.CSV" None = "CSV".
Proof.
  apply (proj1 (proj2 (C6_initial_extension "s3://bucket/Path.To/File.CSV"))
           "s3://bucket/Path.To/File" "CSV"); reflexivity.
Defined.

(** ** The script cleaner *)

Lemma mem_two (x a b : string) : mem x [a; b] = true -> x = a \/ x = b.
Proof.
  unfold mem. cbn. rewrite orb_false_r. intros H.
  apply orb_true_iff in H as [H|H]; apply String.eqb_eq in H; auto.
Qed.

Lemma clean_script_scenario (a : Args) :
  a_parse a = true -> a_remove_comments a = true ->
  clean_script a script_text = inr "x = 1   y = 2".
Proof.
  intros Hp Hr. unfold clean_script. rewrite Hp, Hr. reflexivity.
Qed.

(** Scenario B as the specification has it fails: the text the code
    returns is not ["x = 1 y = 2"]. *)
Lemma C4_counterexample :
  snd (read (example_env [("job.py", script_text)] 0) (default_args "job.py") empty_state)
  <> inr (VStr "x = 1 y = 2").
Proof. vm_compute. discriminate. Qed.

(** C4 (amended): on the text of Scenario B, with [parse] and
    [remove_comments] set, the script branch returns
    ["x = 1   y = 2"], with three spaces between the two statements:
    each line is stripped, then cut at the first ['#'], so the two
    spaces that stood before the comment stay, and the lines that are
    not empty are joined by one space. *)
Theorem C4_script_scenario (env : Env) (a : Args) (orgn : origin) (path : pathv)
    (ext : string) (st st' : St) :
  mem (lower ext) ["py"; "sh"] = true ->
  a_parse a = true ->
  a_remove_comments a = true ->
  read_text env path st = (st', inr script_text) ->
  dispatch env a orgn path ext st = (st', inr (VStr "x = 1   y = 2")).
Proof.
  intros He Hp Hr Ht. unfold dispatch.
  apply mem_two in He as [-> | ->]; cbn [mem List.existsb String.eqb Ascii.eqb Bool.eqb orb];
    unfold bind; rewrite Ht; rewrite (clean_script_scenario a Hp Hr); reflexivity.
Qed.

Lemma C4_script_scenario_witness :
  read (example_env [("job.py", script_text)] 0) (default_args "job.py") empty_state
  = ({| st_cache := []; st_log := [EvOpen "job.py"] |}, inr (VStr "x = 1   y = 2")).
Proof.
  unfold read, bind. cbn [locate default_args a_path a_extension].
  change (classify_origin "job.py") with Other. cbn [ret fst snd].
  apply (C4_script_scenario _ _ Other (PStr "job.py") _ empty_state); reflexivity.
Defined.

(** ** The freshness token *)

Lemma replace_char_cons (c a : ascii) (new s : string) :
  replace (String c "") new (String a s) =
  if Ascii.eqb a c then new +:+ replace (String c "") new s
  else String a (replace (String c "") new s).
Proof. unfold replace. cbn [replace_go]. now rewrite prefix_char. Qed.

Lemma replace_char_delete (c : ascii) (s : string) :
  replace (String c "") "" s = filter_chars (fun x => negb (Ascii.eqb x c)) s.
Proof.
  induction s as [|a s IH]; [reflexivity|].
  rewrite replace_char_cons. cbn [filter_chars]. rewrite IH.
  now destruct (Ascii.eqb a c).
Qed.

Lemma filter_filter (p q : ascii -> bool) (s : string) :
  filter_chars p (filter_chars q s) = filter_chars (fun c => q c && p c) s.
Proof.
  induction s as [|a s IH]; [reflexivity|]. cbn [filter_chars].
  destruct (q a); cbn [filter_chars andb]; rewrite IH; reflexivity.
Qed.

Lemma filter_lower_ext (P f g : ascii -> bool) (s : string) :
  (forall c, P c = true -> f (lower_char c) = g (lower_char c)) ->
  forall_chars P s = true ->
  filter_chars f (lower s) = filter_chars g (lower s).
Proof.
  intros Hfg. induction s as [|a s IH]; intros H; [reflexivity|].
  cbn in H. apply andb_true_iff in H as [Ha Hs].
  cbn [lower filter_chars]. rewrite (Hfg a Ha), (IH Hs). reflexivity.
Qed.

Lemma forall_chars_filter (p q : ascii -> bool) (s : string) :
  forall_chars p s = true -> forall_chars p (filter_chars q s) = true.
Proof.
  induction s as [|a s IH]; intros H; [reflexivity|].
  cbn in H. apply andb_true_iff in H as [Ha Hs]. cbn [filter_chars].
  destruct (q a); cbn [forall_chars]; rewrite ?Ha; auto.
Qed.

Lemma forall_chars_lstrip (p : ascii -> bool) (s : string) :
  forall_chars p s = true -> forall_chars p (lstrip s) = true.
Proof.
  induction s as [|a s IH]; intros H; [reflexivity|].
  cbn [lstrip]. destruct (is_space a); [|exact H].
  cbn in H. apply andb_true_iff in H as [_ Hs]. auto.
Qed.

Lemma forall_chars_rstrip (p : ascii -> bool) (s : string) :
  forall_chars p s = true -> forall_chars p (rstrip s) = true.
Proof.
  induction s as [|a s IH]; intros H; [reflexivity|].
  cbn in H. apply andb_true_iff in H as [Ha Hs]. specialize (IH Hs).
  cbn [rstrip]. destruct (rstrip s) as [|b r].
  - destruct (is_space a); cbn [forall_chars]; rewrite ?Ha; reflexivity.
  - cbn [forall_chars] in *. now rewrite Ha, IH.
Qed.

Lemma forall_chars_strip (p : ascii -> bool) (s : string) :
  forall_chars p s = true -> forall_chars p (strip s) = true.
Proof. intros H. apply forall_chars_rstrip, forall_chars_lstrip, H. Qed.

Lemma forall_chars_ltrim (p : ascii -> bool) (s : string) :
  forall_chars p s = true -> forall_chars p (PyFloat.ltrim s) = true.
Proof.
  induction s as [|a s IH]; intros H; [reflexivity|].
  cbn [PyFloat.ltrim]. destruct (PyFloat.is_blank a); [|exact H].
  cbn in H. apply andb_true_iff in H as [_ Hs]. auto.
Qed.

Lemma forall_chars_rtrim (p : ascii -> bool) (s : string) :
  forall_chars p s = true -> forall_chars p (PyFloat.rtrim s) = true.
Proof.
  induction s as [|a s IH]; intros H; [reflexivity|].
  cbn in H. apply andb_true_iff in H as [Ha Hs]. specialize (IH Hs).
  cbn [PyFloat.rtrim]. destruct (PyFloat.rtrim s) as [|b r].
  - destruct (PyFloat.is_blank a); cbn [forall_chars]; rewrite ?Ha; reflexivity.
  - cbn [forall_chars] in *. now rewrite Ha, IH.
Qed.

Lemma forall_chars_lower (p : ascii -> bool) (s : string) :
  (forall c, p c = true -> p (lower_char c) = true) ->
  forall_chars p s = true -> forall_chars p (lower s) = true.
Proof.
  intros Hp. induction s as [|a s IH]; intros H; [reflexivity|].
  cbn in H. apply andb_true_iff in H as [Ha Hs].
  cbn [lower forall_chars]. now rewrite (Hp a Ha), (IH Hs).
Qed.

(** a check over the 256 characters *)
Ltac each_char c :=
  destruct c as [[] [] [] [] [] [] [] []]; vm_compute; try reflexivity; try discriminate.

Lemma lower_char_not_digit (c : ascii) :
  negb (is_digit c) = true -> negb (is_digit (lower_char c)) = true.
Proof. each_char c. Qed.

Lemma plain_char_numeric (c : ascii) :
  is_lower c || is_upper c || is_digit c || Ascii.eqb c "." || Ascii.eqb c " " = true ->
  (let c' := lower_char c in
   negb (Ascii.eqb c' " ") && negb (is_lower c')
   = negb (is_space c') && (is_digit c' || Ascii.eqb c' ".")).
Proof. each_char c. Qed.

Lemma plain_char_alpha (c : ascii) :
  is_lower c || is_upper c || is_digit c || Ascii.eqb c "." || Ascii.eqb c " " = true ->
  (let c' := lower_char c in
   negb (Ascii.eqb c' " ") && is_lower c'
   = negb (is_space c') && (is_lower c' || is_upper c')).
Proof. each_char c. Qed.

Lemma scan_needs_digit (t : string) :
  forall (s : PyFloat.st) (m : Z) (fd : nat),
    before_digit s = true ->
    forall_chars (fun c => negb (is_digit c)) t = true ->
    PyFloat.scan s m fd t = None.
Proof.
  induction t as [|c t IH]; intros s m fd Hs Ht.
  - destruct s as [| | |[]| |]; try discriminate; reflexivity.
  - cbn in Ht. apply andb_true_iff in Ht as [Hc Ht]. apply negb_true_iff in Hc.
    destruct s as [| | |[]| |]; try discriminate; cbn [PyFloat.scan]; rewrite Hc.
    + destruct (Ascii.eqb c "."); [|reflexivity]. now apply IH.
    + reflexivity.
Qed.

Lemma float_needs_digit (s : string) :
  forall_chars (fun c => negb (is_digit c)) s = true ->
  PyFloat.float s = inl float_error.
Proof.
  intros H. apply forall_chars_ltrim, forall_chars_rtrim in H. unfold PyFloat.float.
  destruct (PyFloat.rtrim (PyFloat.ltrim s)) as [|c t]; [reflexivity|].
  assert (Ht : forall_chars (fun c => negb (is_digit c)) t = true).
  { cbn in H. now apply andb_true_iff in H as [_ H]. }
  unfold PyFloat.unsigned.
  rewrite (scan_needs_digit t PyFloat.IntStart 0 0 eq_refl Ht).
  rewrite (scan_needs_digit (String c t) PyFloat.IntStart 0 0 eq_refl H).
  destruct (Ascii.eqb c "-"), (Ascii.eqb c "+"); reflexivity.
Qed.

Lemma numeric_part_plain (token : string) :
  plain_token token = true ->
  numeric_part (str_c_time (CacheVal token))
  = filter_chars (fun c => is_digit c || Ascii.eqb c ".")
      (filter_chars (fun c => negb (is_space c)) (lower token)).
Proof.
  intros H. unfold numeric_part, str_c_time, cache_time_str.
  rewrite replace_char_delete, !filter_filter.
  apply (filter_lower_ext _ _ _ _ plain_char_numeric H).
Qed.

Lemma alpha_part_plain (token : string) :
  plain_token token = true ->
  alpha_part (str_c_time (CacheVal token))
  = filter_chars (fun c => is_lower c || is_upper c)
      (filter_chars (fun c => negb (is_space c)) (lower token)).
Proof.
  intros H. unfold alpha_part, str_c_time, cache_time_str.
  rewrite replace_char_delete, !filter_filter.
  apply (filter_lower_ext _ _ _ _ plain_char_alpha H).
Qed.

(** the characters [float] receives are never letters *)
Lemma numeric_part_no_letter (c : cache_arg) :
  forall_chars (fun x => negb (is_lower x || is_upper x)) (numeric_part (str_c_time c)) = true.
Proof.
  unfold numeric_part, str_c_time. rewrite replace_char_delete, filter_filter.
  induction (cache_time_str c) as [|a s IH]; [reflexivity|].
  cbn [lower filter_chars].
  destruct (negb (Ascii.eqb (lower_char a) " ") && negb (is_lower (lower_char a))) eqn:E;
    [|exact IH].
  cbn [forall_chars]. rewrite IH, andb_true_r. revert E. clear. each_char a.
Qed.

(** The token as the specification reads it differs from what the code
    computes: the sign is part of what [float] is given. *)
Lemma C5_counterexample :
  parse_freshness (CacheVal "-5mins") <> spec_parse_freshness "-5mins".
Proof. vm_compute. discriminate. Qed.

Lemma forall_chars_weaken (p q : ascii -> bool) (s : string) :
  (forall c, q c = true -> p c = true) ->
  forall_chars p s = false -> forall_chars q s = false.
Proof.
  intros Hqp. induction s as [|a s IH]; [discriminate|]. cbn [forall_chars].
  destruct (q a) eqn:Eq; [|reflexivity]. rewrite (Hqp a Eq). exact IH.
Qed.

Lemma forall_chars_false_filter (p q : ascii -> bool) (s : string) :
  (forall c, p c = false -> q c = true) ->
  forall_chars p s = false -> forall_chars p (filter_chars q s) = false.
Proof.
  intros Hpq. induction s as [|a s IH]; [discriminate|]. cbn [forall_chars filter_chars].
  destruct (p a) eqn:Ep.
  - cbn [andb]. intros H. destruct (q a); cbn [forall_chars]; rewrite ?Ep; auto.
  - intros _. rewrite (Hpq a Ep). cbn [forall_chars]. now rewrite Ep.
Qed.

Lemma forall_chars_false_lower (p : ascii -> bool) (s : string) :
  (forall c, p c = false -> p (lower_char c) = false) ->
  forall_chars p s = false -> forall_chars p (lower s) = false.
Proof.
  intros Hp. induction s as [|a s IH]; [discriminate|]. cbn [forall_chars lower].
  destruct (p a) eqn:Ep.
  - cbn [andb]. intros H. rewrite (IH H). apply andb_false_r.
  - intros _. now rewrite (Hp a Ep).
Qed.

Lemma forall_chars_false_ltrim (p : ascii -> bool) (s : string) :
  (forall c, p c = false -> PyFloat.is_blank c = false) ->
  forall_chars p s = false -> forall_chars p (PyFloat.ltrim s) = false.
Proof.
  intros Hp. induction s as [|a s IH]; [discriminate|]. cbn [PyFloat.ltrim].
  destruct (PyFloat.is_blank a) eqn:Eb; [|auto].
  cbn [forall_chars]. destruct (p a) eqn:Ep; [exact IH|].
  rewrite (Hp a Ep) in Eb. discriminate.
Qed.

Lemma forall_chars_false_rtrim (p : ascii -> bool) (s : string) :
  (forall c, p c = false -> PyFloat.is_blank c = false) ->
  forall_chars p s = false -> forall_chars p (PyFloat.rtrim s) = false.
Proof.
  intros Hp. induction s as [|a s IH]; [discriminate|]. cbn [forall_chars PyFloat.rtrim].
  destruct (p a) eqn:Ep.
  - cbn [andb]. intros H. specialize (IH H).
    destruct (PyFloat.rtrim s) as [|b r]; [discriminate|].
    cbn [forall_chars] in *. now rewrite Ep, IH.
  - intros _. destruct (PyFloat.rtrim s) as [|b r].
    + rewrite (Hp a Ep). cbn [forall_chars]. now rewrite Ep.
    + cbn [forall_chars]. now rewrite Ep.
Qed.

Lemma scan_foreign (t : string) :
  forall (s : PyFloat.st) (m : Z) (fd : nat),
    forall_chars (fun c => is_digit c || Ascii.eqb c "." || Ascii.eqb c "_") t = false ->
    PyFloat.scan s m fd t = None.
Proof.
  induction t as [|c t IH]; intros s m fd H; [discriminate|].
  cbn [forall_chars] in H. cbn [PyFloat.scan].
  destruct (is_digit c), (Ascii.eqb c "."), (Ascii.eqb c "_"); cbn [orb andb] in H;
    destruct s; try reflexivity; apply IH, H.
Qed.

Lemma float_char_scan (c : ascii) :
  is_digit c || Ascii.eqb c "." || Ascii.eqb c "_" = true -> float_char c = true.
Proof. each_char c. Qed.

Lemma float_char_blank (c : ascii) : float_char c = false -> PyFloat.is_blank c = false.
Proof. each_char c. Qed.

Lemma float_char_lower (c : ascii) : float_char c = false -> float_char (lower_char c) = false.
Proof. each_char c. Qed.

Lemma float_char_kept (c : ascii) :
  float_char c = false -> negb (Ascii.eqb c " ") = true /\ negb (is_lower c) = true.
Proof. each_char c; split; reflexivity. Qed.

(** a character [float] does not know makes it raise *)
Lemma float_foreign (s : string) :
  forall_chars float_char s = false -> PyFloat.float s = inl float_error.
Proof.
  intros H.
  apply (forall_chars_false_ltrim _ _ float_char_blank) in H.
  apply (forall_chars_false_rtrim _ _ float_char_blank) in H.
  unfold PyFloat.float. destruct (PyFloat.rtrim (PyFloat.ltrim s)) as [|c t]; [reflexivity|].
  unfold PyFloat.unsigned.
  rewrite (scan_foreign (String c t) _ _ _ (forall_chars_weaken _ _ _ float_char_scan H)).
  destruct (Ascii.eqb c "-") eqn:Em; [|destruct (Ascii.eqb c "+") eqn:Ep]; try reflexivity.
  - apply Ascii.eqb_eq in Em. subst c. cbn [forall_chars] in H.
    change (float_char "-") with true in H. cbn [andb] in H.
    now rewrite (scan_foreign t _ _ _ (forall_chars_weaken _ _ _ float_char_scan H)).
  - apply Ascii.eqb_eq in Ep. subst c. cbn [forall_chars] in H.
    change (float_char "+") with true in H. cbn [andb] in H.
    now rewrite (scan_foreign t _ _ _ (forall_chars_weaken _ _ _ float_char_scan H)).
Qed.

Lemma ltrim_id (s : string) :
  forall_chars (fun c => negb (PyFloat.is_blank c)) s = true -> PyFloat.ltrim s = s.
Proof.
  destruct s as [|a s]; [reflexivity|]. cbn. intros H.
  apply andb_true_iff in H as [Ha _]. apply negb_true_iff in Ha. now rewrite Ha.
Qed.

Lemma rtrim_id (s : string) :
  forall_chars (fun c => negb (PyFloat.is_blank c)) s = true -> PyFloat.rtrim s = s.
Proof.
  induction s as [|a s IH]; [reflexivity|]. cbn [forall_chars PyFloat.rtrim]. intros H.
  apply andb_true_iff in H as [Ha Hs]. apply negb_true_iff in Ha. rewrite (IH Hs), Ha.
  now destruct s.
Qed.

Lemma digit_or_point_not_blank (c : ascii) :
  is_digit c || Ascii.eqb c "." = true -> negb (PyFloat.is_blank c) = true.
Proof. each_char c. Qed.

Lemma rtrim_cons (c : ascii) (s : string) :
  PyFloat.is_blank c = false -> PyFloat.rtrim (String c s) = String c (PyFloat.rtrim s).
Proof. intros H. cbn [PyFloat.rtrim]. rewrite H. now destruct (PyFloat.rtrim s). Qed.

(** [float] on digits and decimal points, without and with a minus sign *)
Lemma float_unsigned (s : string) :
  forall_chars (fun c => is_digit c || Ascii.eqb c ".") s = true ->
  PyFloat.float s = match PyFloat.unsigned s with
                    | Some q => inr q
                    | None => inl float_error
                    end /\
  PyFloat.float (String "-" s) = match PyFloat.unsigned s with
                                 | Some q => inr (- q)%Q
                                 | None => inl float_error
                                 end.
Proof.
  intros H. pose proof (forall_chars_impl _ _ _ digit_or_point_not_blank H) as Hb.
  unfold PyFloat.float. split.
  - rewrite (ltrim_id _ Hb), (rtrim_id _ Hb).
    destruct s as [|c t]; [reflexivity|].
    cbn [forall_chars] in H. apply andb_true_iff in H as [Hc _].
    assert (Ascii.eqb c "-" = false /\ Ascii.eqb c "+" = false) as [-> ->].
    { revert Hc. clear. each_char c; split; reflexivity. }
    destruct (PyFloat.unsigned (String c t)); reflexivity.
  - change (PyFloat.ltrim (String "-" s)) with (String "-" s).
    rewrite (rtrim_cons "-" s eq_refl), (rtrim_id _ Hb).
    cbn [Ascii.eqb Bool.eqb]. destruct (PyFloat.unsigned s); reflexivity.
Qed.

Lemma parse_freshness_squeezed (token : string) :
  parse_freshness (CacheVal token) =
  match PyFloat.float (filter_chars (fun c => negb (is_lower c)) (squeezed token)) with
  | inr m => inr (m, filter_chars is_lower (squeezed token))
  | inl e => inl e
  end.
Proof.
  unfold parse_freshness, numeric_part, alpha_part, str_c_time, cache_time_str, squeezed.
  now rewrite replace_char_delete.
Qed.

(** C5 (amended): the token is lowercased and its spaces are removed;
    the magnitude is [float] of all the characters that are not
    lowercase letters, whatever they are, and the unit is the lowercase
    letters.  On a token made of letters, digits, decimal points and
    spaces this is the parsing the specification describes (digits and
    decimal point for the magnitude, letters for the unit), and a minus
    sign before such a token negates the magnitude; a token without a
    digit raises the error of [float], and so does a token that holds
    a character [float] does not know (a comma, a quote); ["30mins"]
    gives 30 and ["mins"], ["-5mins"] gives -5, ["1,5h"] raises. *)
Theorem C5_freshness_token (token : string) :
  parse_freshness (CacheVal token) =
  match PyFloat.float (filter_chars (fun c => negb (is_lower c)) (squeezed token)) with
  | inr m => inr (m, filter_chars is_lower (squeezed token))
  | inl e => inl e
  end /\
  (plain_token token = true ->
   parse_freshness (CacheVal token) = spec_parse_freshness token /\
   parse_freshness (CacheVal (String "-" token)) =
   match spec_parse_freshness token with
   | inr (m, u) => inr ((- m)%Q, u)
   | inl e => inl e
   end) /\
  (forall_chars (fun c => negb (is_digit c)) token = true ->
   parse_freshness (CacheVal token) = inl float_error) /\
  (forall_chars float_char token = false ->
   parse_freshness (CacheVal token) = inl float_error) /\
  parse_freshness (CacheVal "30mins") = inr (30%Q, "mins") /\
  parse_freshness (CacheVal "-5mins") = inr ((-5)%Q, "mins") /\
  parse_freshness (CacheVal "1,5h") = inl float_error.
Proof.
  split; [apply parse_freshness_squeezed|].
  split; [|split; [|split; [|repeat split; reflexivity]]].
  - intros H. split.
    + unfold parse_freshness, spec_parse_freshness.
      now rewrite (numeric_part_plain _ H), (alpha_part_plain _ H).
    + rewrite parse_freshness_squeezed. unfold squeezed. cbn [lower].
      change (lower_char "-") with "-"%char. cbn [filter_chars Ascii.eqb Bool.eqb negb].
      change (is_lower "-") with false. cbn [negb].
      pose proof (numeric_part_plain _ H) as Hn. pose proof (alpha_part_plain _ H) as Ha.
      unfold numeric_part, alpha_part, str_c_time, cache_time_str in Hn, Ha.
      rewrite replace_char_delete in Hn, Ha. rewrite Hn, Ha.
      unfold spec_parse_freshness.
      destruct (float_unsigned _ (forall_filter_self (fun c => is_digit c || Ascii.eqb c ".")
                  (filter_chars (fun c => negb (is_space c)) (lower token)))) as [E1 E2].
      rewrite E1, E2. now destruct (PyFloat.unsigned _).
  - intros H. unfold parse_freshness.
    rewrite float_needs_digit; [reflexivity|].
    unfold numeric_part, str_c_time, cache_time_str.
    rewrite replace_char_delete. do 2 apply forall_chars_filter.
    apply forall_chars_lower; [exact lower_char_not_digit|exact H].
  - intros H. rewrite parse_freshness_squeezed, float_foreign; [reflexivity|].
    unfold squeezed.
    apply forall_chars_false_filter; [intros c Hc; apply (float_char_kept c Hc)|].
    apply forall_chars_false_filter; [intros c Hc; apply (float_char_kept c Hc)|].
    apply forall_chars_false_lower; [exact float_char_lower|exact H].
Qed.

Lemma C5_freshness_token_witness :
  (parse_freshness (CacheVal "1.5 Hours") = inr (3 # 2, "hours") /\
   parse_freshness (CacheVal "-1.5 Hours") = inr (- (3 # 2), "hours")) /\
  parse_freshness (CacheVal "mins") = inl float_error /\
  parse_freshness (CacheVal "1'000s") = inl float_error.
Proof.
  split; [|split].
  - destruct (proj1 (proj2 (C5_freshness_token "1.5 Hours")) eq_refl) as [H1 H2].
    split; [exact H1|exact H2].
  - apply (proj1 (proj2 (proj2 (C5_freshness_token "mins")))). reflexivity.
  - apply (proj1 (proj2 (proj2 (proj2 (C5_freshness_token "1'000s"))))). reflexivity.
Defined.

(** ** Computations that leave the cache alone *)

Section Quiet.

Variable P : event -> bool.

Lemma quiet_ret {A} (x : A) : quiet P (ret x).
Proof. intros st. split; [reflexivity|]. exists []. now rewrite List.app_nil_r. Qed.

Lemma quiet_raise {A} (e : exn) : quiet P (@raise A e).
Proof. intros st. split; [reflexivity|]. exists []. now rewrite List.app_nil_r. Qed.

Lemma quiet_lift {A} (r : result A) : quiet P (lift r).
Proof. destruct r; [apply quiet_raise|apply quiet_ret]. Qed.

Lemma quiet_emit (e : event) : P e = true -> quiet P (emit e).
Proof.
  intros He st. split; [reflexivity|]. exists [e]. split; [reflexivity|].
  cbn. now rewrite He.
Qed.

Lemma quiet_bind {A B} (m : M A) (k : A -> M B) :
  quiet P m -> (forall x, quiet P (k x)) -> quiet P (bind m k).
Proof.
  intros Hm Hk st. unfold bind. specialize (Hm st).
  destruct (m st) as [st1 [e|x]]; [exact Hm|].
  cbn [fst] in Hm. destruct Hm as [Hc (evs1 & Hl & Hp)].
  destruct (Hk x st1) as [Hc2 (evs2 & Hl2 & Hp2)].
  split; [congruence|]. exists (evs1 ++ evs2). split.
  - rewrite Hl2, Hl. now rewrite List.app_assoc.
  - rewrite List.forallb_app, Hp, Hp2. reflexivity.
Qed.

Lemma quiet_for_each {A B} (l : list A) (body : A -> B -> M B) :
  (forall x acc, quiet P (body x acc)) -> forall acc, quiet P (for_each l body acc).
Proof.
  intros Hb. induction l as [|x l IH]; intros acc; cbn [for_each].
  - apply quiet_ret.
  - apply quiet_bind; [apply Hb|exact IH].
Qed.

End Quiet.

Ltac quiet_step :=
  lazymatch goal with
  | |- quiet _ (ret _) => apply quiet_ret
  | |- quiet _ (raise _) => apply quiet_raise
  | |- quiet _ (lift _) => apply quiet_lift
  | |- quiet _ (emit _) => apply quiet_emit; reflexivity
  | |- quiet _ (bind _ _) => apply quiet_bind; [|intros ?]
  | |- quiet _ (for_each _ _ _) => apply quiet_for_each; intros ? ?
  | |- quiet _ (if ?b then _ else _) => destruct b
  | |- quiet _ (match ?x with _ => _ end) => destruct x
  end.

Lemma open_read_quiet (env : Env) (path : pathv) :
  quiet no_cache_event (open_read env path).
Proof. unfold open_read, get_cache. destruct path; repeat quiet_step.
  intros st. split; [reflexivity|]. exists []. now rewrite List.app_nil_r. Qed.

Lemma dispatch_quiet (env : Env) (a : Args) (orgn : origin) (path : pathv) (ext : string) :
  quiet no_cache_event (dispatch env a orgn path ext).
Proof.
  pose proof (open_read_quiet env) as Ho.
  unfold dispatch, backend, text_value, read_text, urlopen, print.
  repeat first [apply Ho | quiet_step].
Qed.

(** ** Streamable objects *)

Lemma authenticate_quiet (P : event -> bool) (env : Env) (a : Args) :
  (forall p, P (EvSession p) = true) -> (forall c, P (EvGetConfig c) = true) ->
  quiet P (authenticate env a).
Proof.
  intros H1 H2. unfold authenticate.
  apply quiet_bind; [apply quiet_emit, H1|intros _].
  destruct (env_session env (a_profile_name a)) as [e|]; [|apply quiet_ret].
  destruct e; try apply quiet_raise.
  - apply quiet_bind; [apply quiet_emit, H2|intros _].
    destruct (env_get_config env (a_credentials a)); [apply quiet_raise|apply quiet_ret].
  - destruct (String.eqb kind "FileNotFoundError"); apply quiet_raise.
Qed.

Lemma authenticate_cache (env : Env) (a : Args) (st st1 : St) (r : result unit) :
  authenticate env a st = (st1, r) -> st_cache st1 = st_cache st.
Proof.
  intros H. pose proof (authenticate_quiet (fun _ => true) env a
                          (fun _ => eq_refl) (fun _ => eq_refl) st) as [Hc _].
  now rewrite H in Hc.
Qed.

Lemma streamable_locate_quiet (env : Env) (a : Args) :
  classify_origin (a_path a) = S3 ->
  mem (lower (initial_ext (a_path a) (a_extension a))) streamable = true ->
  quiet no_cache_event (locate env a).
Proof.
  intros Ho Hs. unfold locate. rewrite Ho. unfold s3_stage.
  apply quiet_bind; [now apply authenticate_quiet|intros _].
  rewrite Hs. unfold verbose_display, get_object. repeat quiet_step.
Qed.

(** C2: for an [s3://] path whose extension, lowercased, is one of the
    thirteen streamable ones, [read] leaves the cache directory as it
    was and makes no call that consults it, lists it, dates it or
    writes to it; the [cache] argument plays no part, so that no token
    is parsed; and once the session is open the object is fetched with
    one [get_object] and [path] becomes the buffer holding its bytes. *)
Theorem C2_streamable_bypasses_cache (env : Env) (a : Args) (st : St) :
  classify_origin (a_path a) = S3 ->
  mem (lower (initial_ext (a_path a) (a_extension a))) streamable = true ->
  (st_cache (fst (read env a st)) = st_cache st /\
   exists evs, st_log (fst (read env a st)) = st_log st ++ evs /\
               List.forallb no_cache_event evs = true) /\
  (forall c, read env (with_cache a c) st = read env a st) /\
  (forall st1 objs body,
      authenticate env a st = (st1, inr tt) ->
      assoc (bucket_of (a_path a)) (env_s3 env) = Some objs ->
      assoc (folder_path_of (a_path a)) objs = Some body ->
      locate env a st =
      (logged st1 [EvVerbose "Loading the data from S3 directly" (a_verbose a);
                   EvGetObject (bucket_of (a_path a)) (folder_path_of (a_path a))],
       inr (PBytesIO body, initial_ext (a_path a) (a_extension a)))).
Proof.
  intros Ho Hs. split; [|split].
  - apply (quiet_bind no_cache_event (locate env a)).
    + now apply streamable_locate_quiet.
    + intros pe. apply dispatch_quiet.
  - intros c. unfold read, locate. cbn [with_cache a_path a_extension].
    rewrite Ho. unfold s3_stage. cbn [with_cache a_path a_extension].
    rewrite Hs. reflexivity.
  - intros st1 objs body Ha Hb Hk. unfold locate. rewrite Ho.
    unfold s3_stage, bind. rewrite Ha, Hs.
    unfold verbose_display, get_object, bind, emit. cbn [st_cache st_log].
    rewrite Hb, Hk. unfold ret, logged. rewrite <- List.app_assoc. reflexivity.
Qed.

Lemma C2_streamable_bypasses_cache_witness :
  st_cache (fst (read (example_env [] 0) (default_args "s3://bucket/data.csv") empty_state)) = []
  /\ locate (example_env [] 0) (default_args "s3://bucket/data.csv") empty_state
     = (logged (logged empty_state [EvSession None])
          [EvVerbose "Loading the data from S3 directly" false;
           EvGetObject "bucket" "data.csv"],
        inr (PBytesIO "a,b", "csv")).
Proof.
  pose proof (C2_streamable_bypasses_cache (example_env [] 0)
                (default_args "s3://bucket/data.csv") empty_state eq_refl eq_refl)
    as [[Hc _] [_ Hl]].
  split; [exact Hc|].
  exact (Hl (logged empty_state [EvSession None]) _ "a,b" eq_refl eq_refl eq_refl).
Defined.

(** ** The cache directory *)

Lemma assoc_mem {A} (k : string) (l : list (string * A)) (v : A) :
  assoc k l = Some v -> mem k (List.map fst l) = true.
Proof.
  induction l as [|[k' v'] l IH]; [discriminate|]. cbn.
  destruct (String.eqb k k'); [reflexivity|]. exact IH.
Qed.

Lemma Qltb_lt (a b : Q) : (a < b)%Q -> Qltb a b = true.
Proof.
  intros H. unfold Qltb. apply negb_true_iff.
  destruct (Qle_bool b a) eqn:E; [|reflexivity].
  apply Qle_bool_iff in E. exfalso. apply (Qlt_not_le _ _ H E).
Qed.

Lemma logged_logged (st : St) (e1 e2 : list event) : logged (logged st e1) e2 = logged st (e1 ++ e2).
Proof. unfold logged. cbn. now rewrite List.app_assoc. Qed.

Lemma emit_logged (e : event) (st : St) : emit e st = (logged st [e], inr tt).
Proof. reflexivity. Qed.

Lemma mem_assoc {A} (k : string) (l : list (string * A)) :
  mem k (List.map fst l) = true -> exists v, assoc k l = Some v.
Proof.
  induction l as [|[k' v'] l IH]; [discriminate|]. cbn.
  destruct (String.eqb k k'); [eauto|]. exact IH.
Qed.

Lemma not_mem_assoc {A} (k : string) (l : list (string * A)) :
  mem k (List.map fst l) = false -> assoc k l = None.
Proof.
  induction l as [|[k' v'] l IH]; [reflexivity|]. cbn.
  destruct (String.eqb k k'); [discriminate|]. exact IH.
Qed.

Lemma assoc_set_dir (sub : string) (d d0 : dir) (c : list (string * dir)) :
  assoc sub c = Some d0 -> assoc sub (set_dir sub d c) = Some d.
Proof.
  induction c as [|[n dn] c IH]; [discriminate|]. cbn.
  destruct (String.eqb sub n) eqn:E; cbn; rewrite E; auto.
Qed.

Lemma assoc_app_new (sub : string) (d : dir) (c : list (string * dir)) :
  assoc sub c = None -> assoc sub (c ++ [(sub, d)]) = Some d.
Proof.
  induction c as [|[n dn] c IH]; cbn.
  - now rewrite String.eqb_refl.
  - destruct (String.eqb sub n); [discriminate|]. exact IH.
Qed.

Section Loops.

Variable env : Env.
Variables bucket folder_path path sub : string.
Variable objs : list (string * string).
Hypothesis Hbucket : assoc bucket (env_s3 env) = Some objs.

Lemma download_file_result (key name : string) (st st' : St) (d : dir) :
  assoc sub (st_cache st) = Some d ->
  download_file env bucket key path sub name st = (st', inr tt) ->
  exists body, assoc key objs = Some body /\
               assoc sub (st_cache st') = Some (put_file name body d).
Proof.
  intros Hd. unfold download_file, bind. rewrite emit_logged, Hbucket.
  destruct (assoc key objs) as [body|]; [|discriminate].
  destruct (String.eqb name ""); [discriminate|].
  cbn [get_cache logged st_cache]. rewrite Hd. unfold put_cache.
  intros [= <-]. exists body. split; [reflexivity|]. cbn [st_cache].
  now apply assoc_set_dir with d.
Qed.

Lemma download_each (skip : string -> string -> bool) (keys : list string) :
  forall (st st' : St) (ext ext' : string) (d : dir),
    assoc sub (st_cache st) = Some d ->
    for_each keys
      (fun key ext =>
         if skip folder_path key then ret ext
         else bind (download_file env bucket key path sub (split_last "/" key))
                (fun _ => ret (split_last "." key)))
      ext st = (st', inr ext') ->
    assoc sub (st_cache st') =
    Some (List.fold_left (downloaded objs)
            (List.filter (fun k => negb (skip folder_path k)) keys) d).
Proof.
  induction keys as [|key keys IH]; intros st st' ext ext' d Hd; cbn [for_each].
  - intros [= <- _]. exact Hd.
  - unfold bind at 1. cbn [List.filter].
    destruct (skip folder_path key); cbn [negb].
    + cbn [ret]. apply IH, Hd.
    + unfold bind at 1.
      destruct (download_file env bucket key path sub (split_last "/" key) st)
        as [st1 [e|[]]] eqn:E; [discriminate|].
      destruct (download_file_result _ _ _ _ _ Hd E) as (body & Hk & Hd1).
      cbn [ret List.fold_left]. intros H. rewrite (IH _ _ _ _ _ Hd1 H).
      do 2 f_equal. unfold downloaded. now rewrite Hk.
Qed.

End Loops.

Lemma remove_each (path sub : string) (names : list string) :
  forall (st st' : St) (r : result unit) (d : dir),
    assoc sub (st_cache st) = Some d ->
    (forall f, List.In f d -> List.In (fst f) names) ->
    for_each names (fun name _ => remove_file path sub name) tt st = (st', r) ->
    r = inr tt /\ assoc sub (st_cache st') = Some [].
Proof.
  induction names as [|n names IH]; intros st st' r d Hd Hin; cbn [for_each].
  - intros [= <- <-]. split; [reflexivity|].
    destruct d as [|f d]; [exact Hd|]. destruct (Hin f (or_introl eq_refl)).
  - unfold bind at 1. unfold remove_file at 1. unfold bind. rewrite emit_logged.
    cbn [get_cache logged st_cache]. rewrite Hd. unfold put_cache.
    apply IH with (d := List.filter (fun f => negb (String.eqb (fst f) n)) d).
    + cbn [st_cache]. now apply assoc_set_dir with d.
    + intros f Hf. apply List.filter_In in Hf as [Hf Hn].
      destruct (Hin f Hf) as [E|H]; [|exact H].
      rewrite <- E, String.eqb_refl in Hn. discriminate.
Qed.

Lemma remove_all_result (path sub : string) (st st' : St) (r : result unit)
    (d : dir) :
  assoc sub (st_cache st) = Some d ->
  remove_all path sub st = (st', r) ->
  r = inr tt /\ assoc sub (st_cache st') = Some [].
Proof.
  intros Hd. unfold remove_all, bind. rewrite emit_logged.
  cbn [get_cache logged st_cache]. rewrite Hd.
  apply remove_each with (d := d); [exact Hd|].
  intros f Hf. now apply List.in_map.
Qed.

Lemma download_loop_result (env : Env) (skip : string -> string -> bool)
    (bucket folder_path path sub ext ext' : string) (st st' : St) (d : dir) :
  assoc sub (st_cache st) = Some d ->
  download_loop env skip bucket folder_path path sub ext st = (st', inr ext') ->
  exists objs, assoc bucket (env_s3 env) = Some objs /\
               assoc sub (st_cache st') = Some (downloads skip objs folder_path d).
Proof.
  intros Hd. unfold download_loop, list_objects, bind. rewrite emit_logged.
  destruct (assoc bucket (env_s3 env)) as [objs|] eqn:Hb; [|discriminate].
  cbn [ret]. intros H. exists objs. split; [reflexivity|].
  apply (download_each env bucket folder_path path sub objs Hb skip _ _ _ _ _ d) in H;
    [exact H|exact Hd].
Qed.


Lemma parse_freshness_unit (c : cache_arg) (m : Q) (u : string) :
  parse_freshness c = inr (m, u) -> u = alpha_part (str_c_time c).
Proof.
  unfold parse_freshness. destruct (PyFloat.float _); [discriminate|].
  now intros [= _ <-].
Qed.

Lemma makedirs_result (path sub : string) (st : St) :
  assoc sub (st_cache st) = None ->
  exists st', makedirs path sub st = (st', inr tt) /\ assoc sub (st_cache st') = Some [].
Proof.
  intros Hn. unfold makedirs, bind. rewrite emit_logged.
  cbn [get_cache logged st_cache]. rewrite Hn. unfold put_cache. eexists. split; [reflexivity|].
  cbn [st_cache]. now apply assoc_app_new.
Qed.


(** ** A forced refresh *)


(** ** A cache HIT *)

(** C10: when the subdirectory of the key exists and its age is below
    the freshness bound, the extension is taken from the first name of
    the listing of the subdirectory and nothing is fetched; when that
    listing is empty the call ends with an IndexError, the cache is left
    as it was and no object is listed or downloaded. *)
Theorem C10_cache_hit (env : Env) (a : Args) (st st0 : St) (c_time age : Q)
    (fmt : string) (d : dir) :
  classify_origin (a_path a) = S3 ->
  mem (lower (initial_ext (a_path a) (a_extension a))) streamable = false ->
  authenticate env a st = (st0, inr tt) ->
  parse_freshness (a_cache a) = inr (c_time, fmt) ->
  assoc (cache_sub env a) (st_cache st) = Some d ->
  env_file_age env (cache_path env a) fmt = inr age ->
  (age < c_time)%Q ->
  let consulted :=
    [EvDataFolder; EvListdir (env_data_path env); EvFileAge (cache_path env a) fmt;
     EvListdir (cache_path env a)] in
  match d with
  | [] => read env a st = (logged st0 consulted, inl IndexError)
  | (f, _) :: _ =>
      locate env a st =
      (logged st0 (consulted ++ [EvVerbose "Data file available in cache" (a_verbose a)]),
       inr (PStr (cache_path env a), split_last "." f))
  end.
Proof.
  intros Ho Hs Ha Hp Hd Hage Hlt consulted. subst consulted.
  unfold cache_path, cache_sub in *.
  rewrite <- (authenticate_cache _ _ _ _ _ Ha) in Hd.
  assert (Hl : locate env a st =
               match d with
               | [] => (logged st0 [EvDataFolder; EvListdir (env_data_path env); EvFileAge (os_path_join (env_data_path env) (cache_file_name env a)) fmt; EvListdir (os_path_join (env_data_path env) (cache_file_name env a))], inl IndexError)
               | (f, _) :: _ =>
                   (logged st0 ([EvDataFolder; EvListdir (env_data_path env); EvFileAge (os_path_join (env_data_path env) (cache_file_name env a)) fmt; EvListdir (os_path_join (env_data_path env) (cache_file_name env a))] ++
                                  [EvVerbose "Data file available in cache" (a_verbose a)]),
                    inr (PStr (os_path_join (env_data_path env) (cache_file_name env a)), split_last "." f))
               end).
  { unfold locate. rewrite Ho. unfold s3_stage, bind. rewrite Ha, Hs.
    unfold materialize, bind. rewrite Hp. cbn [lift ret fst snd].
    rewrite emit_logged. unfold listdir_root, bind. rewrite emit_logged.
    cbn [get_cache logged st_cache ret].
    rewrite (assoc_mem _ _ _ Hd).
    unfold file_age, bind. rewrite emit_logged, Hage.
    cbn [lift ret]. rewrite (Qltb_lt _ _ Hlt).
    unfold cache_hit, listdir_sub, bind. rewrite emit_logged.
    cbn [get_cache logged st_cache ret]. rewrite Hd.
    destruct d as [|[f body] d']; cbn [List.map first fst].
    - rewrite !logged_logged. reflexivity.
    - unfold verbose_display, ret. cbn [first lookup list_lookup].
      rewrite emit_logged, !logged_logged. reflexivity. }
  destruct d as [|[f body] d']; [|exact Hl].
  unfold read, bind. rewrite Hl. reflexivity.
Qed.


Lemma C10_cache_hit_witness :
  read (example_env [] 5) (default_args "s3://bucket/set/") (cached_state [])
  = (logged (logged (cached_state []) [EvSession None])
       [EvDataFolder; EvListdir "/tmp/pycof/data";
        EvFileAge (cache_path (example_env [] 5) (default_args "s3://bucket/set/")) "mins";
        EvListdir (cache_path (example_env [] 5) (default_args "s3://bucket/set/"))],
     inl IndexError).
Proof.
  apply (C10_cache_hit (example_env [] 5) (default_args "s3://bucket/set/")
           (cached_state []) (logged (cached_state []) [EvSession None])
           30%Q 5%Q "mins" []); reflexivity.
Defined.

(** ** The two download loops *)

(** C1: the first download of a data set keeps a key that the refresh
    of the same data set skips.  With the objects [set/] (the
    directory marker), [set/_SUCCESS] and [set/part-0.parquet] under
    the prefix, a call that finds no subdirectory downloads
    [_SUCCESS] as well, a call that finds a stale one downloads the
    parquet file only. *)
Theorem C1_first_download_keeps_every_key :
  st_cache (fst (read (example_env [] 3600) (default_args "s3://bucket/set/") empty_state))
  = [(example_key, [("_SUCCESS", ""); ("part-0.parquet", "PAR1")])] /\
  st_cache (fst (read (example_env [] 3600) (default_args "s3://bucket/set/")
                   (cached_state [("old.parquet", "x")])))
  = [(example_key, [("part-0.parquet", "PAR1")])] /\
  skipped_on_refresh "set/" "set/_SUCCESS" = true /\
  skipped_on_first_download "set/" "set/_SUCCESS" = false.
Proof. vm_compute. repeat split. Qed.

Lemma mem_In (x : string) (l : list string) : mem x l = true -> List.In x l.
Proof.
  unfold mem. intros H. apply List.existsb_exists in H as (y & Hy & E).
  apply String.eqb_eq in E. now subst.
Qed.

Ltac mem_cases H :=
  apply mem_In in H; cbn [List.In] in H;
  repeat (destruct H as [H|H]; [symmetry in H|]); [..|contradiction].

(** ** The decoding engine *)

(** a spreadsheet is read with an engine name that no backend knows:
    [read] raises nothing itself; its one external call hands the name
    to [pd.read_excel], and the outcome of that call is what [read]
    returns *)
Lemma C8_counterexample :
  read (example_env [("book.xlsx", "")] 0)
    (with_engine (default_args "book.xlsx") (EngStr "bogus")) empty_state
  = (logged empty_state
       [EvBackend (pd_read_excel (PStr "book.xlsx") (SheetIndex 0) (EngStr "bogus") ∅)],
     inr (VTable (pd_read_excel (PStr "book.xlsx") (SheetIndex 0) (EngStr "bogus") ∅))).
Proof. reflexivity. Qed.

(** C8 (amended): for an engine given as a string other than ['auto']
    whose lowercase form is none of [py], [pa], [pyarrow], [fp],
    [fastparquet]: a parquet file that is not read from S3 makes [read]
    raise [ValueError('Engine value not allowed')] before any call to a
    decoder; a parquet path read from S3 is decoded by
    [pd.read_parquet] whatever the engine; a spreadsheet is handed to
    [pd.read_excel] together with the engine string as it is. *)
Theorem C8_engine_check (env : Env) (a : Args) (orgn : origin) (path : pathv)
    (ext s : string) (st : St) :
  a_engine a = EngStr s ->
  s <> "auto" ->
  mem (lower s) parquet_engines = false ->
  (mem (lower ext) ["parq"; "parquet"] = true -> orgn <> S3 ->
   dispatch env a orgn path ext st = (st, inl (ValueError "Engine value not allowed"))) /\
  (mem (lower ext) ["parq"; "parquet"] = true -> orgn = S3 ->
   dispatch env a orgn path ext st = backend (pd_read_parquet path) st) /\
  (mem (lower ext) ["xls"; "xlsx"] = true ->
   dispatch env a orgn path ext st =
   backend (pd_read_excel path (a_sheet_name a) (EngStr s) (a_kwargs a)) st).
Proof.
  intros He Hs Hm.
  assert (Ha : engine_is_auto (a_engine a) = false).
  { rewrite He. cbn. now apply String.eqb_neq. }
  unfold parquet_engines, mem in Hm. cbn [List.existsb] in Hm.
  apply orb_false_iff in Hm as [H1 Hm]. apply orb_false_iff in Hm as [H2 Hm].
  apply orb_false_iff in Hm as [H3 Hm]. apply orb_false_iff in Hm as [H4 Hm].
  apply orb_false_iff in Hm as [H5 _].
  repeat split; intros Hext; unfold dispatch; mem_cases Hext; rewrite Hext;
    cbn [mem List.existsb String.eqb Ascii.eqb Bool.eqb orb]; rewrite Ha, ?He.
  all: try reflexivity.
  all: intros Ho; destruct orgn; try congruence; try discriminate.
  all: now rewrite H1, H2, H3, H4, H5.
Qed.

Lemma C8_engine_check_witness :
  dispatch (example_env [] 0) (with_engine (default_args "t.parquet") (EngStr "spark"))
    Other (PStr "t.parquet") "parquet" empty_state
  = (empty_state, inl (ValueError "Engine value not allowed")).
Proof.
  apply (proj1 (C8_engine_check (example_env [] 0)
                  (with_engine (default_args "t.parquet") (EngStr "spark"))
                  Other (PStr "t.parquet") "parquet" "spark" empty_state
                  eq_refl ltac:(discriminate) eq_refl));
    [reflexivity|discriminate].
Defined.

(** ** The read-only mode *)

Lemma file_lines_concat (s : string) :
  List.fold_right String.append "" (file_lines s) = s.
Proof.
  induction s as [|c s IH]; [reflexivity|]. cbn [file_lines].
  destruct (Ascii.eqb c "010").
  - cbn [List.fold_right]. now rewrite IH.
  - destruct (file_lines s) as [|h t]; cbn [List.fold_right] in *.
    + now rewrite <- IH.
    + rewrite <- IH. reflexivity.
Qed.


Lemma bind_inr {A B} (m : M A) (k : A -> M B) (st st' : St) (y : B) :
  bind m k st = (st', inr y) ->
  exists st1 x, m st = (st1, inr x) /\ k x st1 = (st', inr y).
Proof.
  unfold bind. destruct (m st) as [st1 [e|x]]; [discriminate|]. eauto.
Qed.





(** ** JSON with comments *)

Lemma split_first_cons (sep : string) (a : ascii) (s : string) :
  split_first sep (String a s) =
  if is_prefix sep (String a s) then "" else String a (split_first sep s).
Proof.
  unfold split_first, split. cbn [split_go].
  destruct (is_prefix sep (String a s)); [reflexivity|].
  pose proof (split_go_not_nil sep 0 s) as Hne.
  destruct (split_go sep 0 s); [contradiction|reflexivity].
Qed.

Lemma contains_cons (p : string) (a : ascii) (s : string) :
  contains p (String a s) = is_prefix p (String a s) || contains p s.
Proof. reflexivity. Qed.






















Lemma split_char_app (c : ascii) (x rest : string) :
  lacks c x = true ->
  split (String c "") (x +:+ String c rest) = x :: split (String c "") rest.
Proof.
  induction x as [|a x IH]; intros H.
  - rewrite app_nil_l, split_char_cons. now rewrite Ascii.eqb_refl.
  - cbn in H. apply andb_true_iff in H as [Ha Hx]. apply negb_true_iff in Ha.
    rewrite app_cons, split_char_cons, Ha. now rewrite (IH Hx).
Qed.

Lemma join_cons (sep x y : string) (l : list string) :
  join sep (x :: y :: l) = x +:+ sep +:+ join sep (y :: l).
Proof. reflexivity. Qed.




(** the comma before the closing brace is taken out when the comment
    follows it directly, and stays (the text is then not JSON) when a
    space stands between the comma and the comment *)
Lemma jsonc_comma_examples :
  read_jsonc true jsonc_tight = Json.loads json_plain /\
  Json.loads json_plain = inr (Json.JObj [("a", Json.JNum "1")]) /\
  read_jsonc true jsonc_spaced = inl JSONDecodeError.
Proof. vm_compute. repeat split. Qed.



(** * Properties of the remaining code *)

(** ** Paths that are not on S3 *)

Lemma open_read_local (env : Env) (path : pathv) : quiet local_event (open_read env path).
Proof.
  unfold open_read, get_cache. destruct path; repeat quiet_step.
  intros st. split; [reflexivity|]. exists []. now rewrite List.app_nil_r.
Qed.

Lemma dispatch_local (env : Env) (a : Args) (orgn : origin) (path : pathv) (ext : string) :
  quiet local_event (dispatch env a orgn path ext).
Proof.
  pose proof (open_read_local env) as Ho.
  unfold dispatch, backend, text_value, read_text, urlopen, print.
  repeat first [apply Ho | quiet_step].
Qed.

Lemma locate_local (env : Env) (a : Args) (st : St) :
  classify_origin (a_path a) <> S3 ->
  locate env a st = (st, inr (PStr (a_path a), initial_ext (a_path a) (a_extension a))).
Proof.
  intros H. unfold locate. destruct (classify_origin (a_path a)); [contradiction| |]; reflexivity.
Qed.

(** X1: a path that does not start with [s3://] never reaches the S3
    branch: the call opens no session, reaches neither the object store
    nor the cache directory, which it leaves as it was, and its outcome
    does not depend on [credentials], [profile_name], [cache],
    [cache_name] or [verbose]. *)
Theorem local_read_skips_s3 (env : Env) (a : Args) (st : St) :
  classify_origin (a_path a) <> S3 ->
  (st_cache (fst (read env a st)) = st_cache st /\
   exists evs, st_log (fst (read env a st)) = st_log st ++ evs /\
               List.forallb local_event evs = true) /\
  (forall b, same_local_request a b -> read env b st = read env a st).
Proof.
  intros Ho. split.
  - unfold read, bind. rewrite (locate_local env a st Ho). cbn [fst snd].
    apply dispatch_local.
  - intros b (Hp & He & Hpa & Hr & Hs & Hsh & Hen & Hk).
    assert (Hob : classify_origin (a_path b) <> S3) by now rewrite <- Hp.
    unfold read, bind. rewrite (locate_local env a st Ho), (locate_local env b st Hob).
    cbn [fst snd]. rewrite <- Hp, <- He.
    destruct a, b. cbn in *. subst. reflexivity.
Qed.

Lemma local_read_skips_s3_witness :
  read (example_env [("job.py", script_text)] 0)
    (with_cache (default_args "job.py") (CacheVal "no number")) empty_state
  = read (example_env [("job.py", script_text)] 0) (default_args "job.py") empty_state.
Proof.
  apply (local_read_skips_s3 (example_env [("job.py", script_text)] 0)
           (default_args "job.py") empty_state).
  - discriminate.
  - repeat split.
Defined.

(** ** The extension in the dispatch *)

Lemma lower_char_idem (c : ascii) : lower_char (lower_char c) = lower_char c.
Proof. each_char c. Qed.

Lemma lower_idem (s : string) : lower (lower s) = lower s.
Proof.
  induction s as [|c s IH]; [reflexivity|]. cbn [lower]. now rewrite lower_char_idem, IH.
Qed.

(** X2: the dispatch on the extension does not see its case: an
    extension and its lowercase form select the same branch and give the
    same outcome. *)
Theorem dispatch_ignores_case (env : Env) (a : Args) (orgn : origin) (path : pathv)
    (ext : string) :
  dispatch env a orgn path ext = dispatch env a orgn path (lower ext).
Proof. unfold dispatch. now rewrite lower_idem. Qed.

Lemma mem_incl (x : string) (l l' : list string) :
  (forall y, List.In y l' -> List.In y l) -> mem x l = false -> mem x l' = false.
Proof.
  intros Hi H. destruct (mem x l') eqn:E; [|reflexivity].
  apply mem_In, Hi in E. unfold mem in H.
  assert (List.existsb (String.eqb x) l = true); [|congruence].
  apply List.existsb_exists. exists x. split; [exact E|apply String.eqb_refl].
Qed.

Ltac unrecognised H :=
  repeat match goal with
    | |- context [mem ?e ?l] =>
        rewrite (mem_incl e recognised_exts l ltac:(cbn; intuition) H)
    end.

(** X3: an extension that no branch tests for is not an error: the
    file is opened and its content is returned as it is. *)
Theorem unknown_extension_returns_content (env : Env) (a : Args) (orgn : origin)
    (p ext txt : string) (st st' : St) :
  mem (lower ext) recognised_exts = false ->
  open_read env (PStr p) st = (st', inr txt) ->
  dispatch env a orgn (PStr p) ext st = (st', inr (VStr txt)).
Proof.
  intros He Ho. unfold dispatch. cbv zeta. unfold read_only_exts. unrecognised He.
  unfold bind. now rewrite Ho.
Qed.

Lemma unknown_extension_returns_content_witness :
  read (example_env [("notes.md", "# Title " +:+ nl)] 0) (default_args "notes.md") empty_state
  = (logged empty_state [EvOpen "notes.md"], inr (VStr ("# Title " +:+ nl))).
Proof.
  unfold read, bind. rewrite locate_local; [|discriminate]. cbn [fst snd].
  apply (unknown_extension_returns_content _ _ _ "notes.md" _ ("# Title " +:+ nl)
           empty_state); reflexivity.
Defined.

(** ** Templating *)


Lemma forall_chars_app (p : ascii -> bool) (s t : string) :
  forall_chars p (s +:+ t) = forall_chars p s && forall_chars p t.
Proof.
  induction s as [|c s IH]; [reflexivity|]. rewrite app_cons. cbn [forall_chars].
  now rewrite IH, andb_assoc.
Qed.

Lemma format_go_literal (kw : gmap string string) (pre rest : string) :
  brace_free pre = true ->
  PyFormat.format_go kw PyFormat.Lit (pre +:+ rest) =
  match PyFormat.format_go kw PyFormat.Lit rest with
  | inr r => inr (pre +:+ r)
  | inl e => inl e
  end.
Proof.
  unfold brace_free, lacks. intros H. apply andb_true_iff in H as [Ho Hc].
  induction pre as [|c pre IH].
  - rewrite app_nil_l. now destruct (PyFormat.format_go kw PyFormat.Lit rest).
  - cbn in Ho, Hc. apply andb_true_iff in Ho as [Ho1 Ho]. apply andb_true_iff in Hc as [Hc1 Hc].
    apply negb_true_iff in Ho1, Hc1. rewrite app_cons. cbn [PyFormat.format_go].
    rewrite Ho1, Hc1, (IH Ho Hc).
    now destruct (PyFormat.format_go kw PyFormat.Lit rest).
Qed.

Lemma format_plain (kw : gmap string string) (s : string) :
  brace_free s = true -> PyFormat.format kw s = inr s.
Proof.
  intros H. unfold PyFormat.format. rewrite <- (app_nil_r s) at 1.
  rewrite (format_go_literal kw s "" H). cbn. now rewrite app_nil_r.
Qed.

Lemma format_go_field (kw : gmap string string) (n : string) :
  forall acc post,
    forall_chars (fun c => negb (Ascii.eqb c "{") && negb (Ascii.eqb c "}")) n = true ->
    PyFormat.format_go kw (PyFormat.InField acc) (n +:+ String "}" post) =
    match PyFormat.field kw (acc +:+ n) with
    | inr v => match PyFormat.format_go kw PyFormat.Lit post with
               | inr r => inr (v +:+ r)
               | inl e => inl e
               end
    | inl e => inl e
    end.
Proof.
  induction n as [|c n IH]; intros acc post H.
  - rewrite app_nil_l, app_nil_r. reflexivity.
  - cbn in H. apply andb_true_iff in H as [Hc Hn]. apply andb_true_iff in Hc as [Ho Hc].
    apply negb_true_iff in Ho, Hc. rewrite app_cons. cbn [PyFormat.format_go].
    rewrite Ho, Hc, (IH _ _ Hn). unfold PyFormat.snoc. now rewrite app_assoc.
Qed.

Lemma field_plain (kw : gmap string string) (name : string) :
  plain_name name = true ->
  PyFormat.field kw name =
  match kw !! name with
  | Some v => inr v
  | None => inl (KeyError name)
  end.
Proof.
  unfold plain_name. intros H. apply andb_true_iff in H as [H H3].
  apply andb_true_iff in H as [_ H2]. apply negb_true_iff in H2.
  unfold PyFormat.field. rewrite H2.
  assert (H4 : forall_chars
                 (fun c => negb (List.existsb (Ascii.eqb c) ["!"; ":"; "."; "["]%char))
                 name = true).
  { revert H3. apply forall_chars_impl. intros c. cbn [List.existsb].
    destruct (Ascii.eqb c "{"), (Ascii.eqb c "}"); cbn; auto; discriminate. }
  now rewrite H4.
Qed.

Lemma format_one_field (kw : gmap string string) (pre name post : string) :
  brace_free pre = true -> plain_name name = true ->
  PyFormat.format kw (pre +:+ "{" +:+ name +:+ "}" +:+ post) =
  match kw !! name with
  | Some v => match PyFormat.format kw post with
              | inr r => inr (pre +:+ v +:+ r)
              | inl e => inl e
              end
  | None => inl (KeyError name)
  end.
Proof.
  intros Hpre Hn. unfold PyFormat.format. rewrite (format_go_literal kw pre _ Hpre).
  rewrite app_cons, app_nil_l. cbn [PyFormat.format_go]. cbn [Ascii.eqb Bool.eqb].
  pose proof Hn as Hn'. unfold plain_name in Hn'.
  apply andb_true_iff in Hn' as [Hn' H3]. apply andb_true_iff in Hn' as [H1 _].
  destruct name as [|c name]; [discriminate|].
  cbn in H3. apply andb_true_iff in H3 as [Hc H3].
  rewrite app_cons. cbn [PyFormat.format_go].
  assert (Ho : Ascii.eqb c "{" = false) by (destruct (Ascii.eqb c "{"); [discriminate|reflexivity]).
  assert (Hcl : Ascii.eqb c "}" = false).
  { destruct (Ascii.eqb c "{"), (Ascii.eqb c "}"); try discriminate; reflexivity. }
  rewrite Ho, Hcl.
  change ("}" +:+ post) with (String "}" post).
  rewrite format_go_field.
  - change (String c "" +:+ name) with (String c name). rewrite (field_plain kw _ Hn).
    destruct (kw !! String c name); [|reflexivity].
    destruct (PyFormat.format_go kw PyFormat.Lit post); reflexivity.
  - revert H3. apply forall_chars_impl. intros x. cbn [List.existsb].
    destruct (Ascii.eqb x "{"), (Ascii.eqb x "}"); cbn; auto.
Qed.

(** X4: with [parse] set, a line whose stripped text holds one
    placeholder [{name}] between brace-free texts has the placeholder
    replaced by the keyword argument of that name, and the comment is
    removed after the replacement, so also from the value put in; when
    no keyword argument has that name the line raises [KeyError]. *)
Theorem clean_line_placeholder (kw : gmap string string)
    (uncomment : option (string -> string)) (line pre name post : string) :
  strip line = pre +:+ "{" +:+ name +:+ "}" +:+ post ->
  brace_free pre = true -> plain_name name = true -> brace_free post = true ->
  clean_line true kw uncomment line =
  match kw !! name with
  | Some v => inr (uncommented uncomment (pre +:+ v +:+ post))
  | None => inl (KeyError name)
  end.
Proof.
  intros Hl Hpre Hn Hpost. unfold clean_line. rewrite Hl.
  rewrite (format_one_field kw pre name post Hpre Hn), (format_plain kw post Hpost).
  destruct (kw !! name); [|reflexivity]. now destruct uncomment.
Qed.

Lemma clean_line_placeholder_witness :
  clean_line true (<["country" := "FR # France"]> ∅) (Some uncomment_script)
    "  where c = '{country}' and x" = inr "where c = 'FR "
  /\ clean_line true ∅ (Some uncomment_script) "  where c = '{country}' and x"
     = inl (KeyError "country").
Proof.
  split.
  - rewrite (clean_line_placeholder (<["country" := "FR # France"]> ∅)
               (Some uncomment_script) "  where c = '{country}' and x"
               "where c = '" "country" "' and x" eq_refl eq_refl eq_refl eq_refl).
    reflexivity.
  - rewrite (clean_line_placeholder ∅ (Some uncomment_script)
               "  where c = '{country}' and x"
               "where c = '" "country" "' and x" eq_refl eq_refl eq_refl eq_refl).
    reflexivity.
Defined.

Lemma split_char_forall (p : ascii -> bool) (c : ascii) (s : string) :
  forall_chars p s = true ->
  List.forallb (forall_chars p) (split (String c "") s) = true.
Proof.
  induction s as [|a s IH]; intros H; [reflexivity|].
  cbn in H. apply andb_true_iff in H as [Ha Hs]. specialize (IH Hs).
  rewrite split_char_cons. destruct (Ascii.eqb a c).
  - exact IH.
  - destruct (split (String c "") s) as [|h t]; cbn [List.forallb forall_chars] in *.
    + now rewrite Ha.
    + now rewrite Ha.
Qed.

Lemma clean_lines_ext (step1 step2 : string -> result string) (P : string -> bool)
    (lines : list string) :
  (forall l, P l = true -> step1 l = step2 l) ->
  List.forallb P lines = true ->
  forall data, clean_lines step1 lines data = clean_lines step2 lines data.
Proof.
  intros Hs. induction lines as [|l lines IH]; intros H data; [reflexivity|].
  cbn in H. apply andb_true_iff in H as [Hl H]. cbn [clean_lines].
  rewrite (Hs l Hl). destruct (step2 l); [reflexivity|]. now apply IH.
Qed.

Lemma brace_free_forall (s : string) :
  brace_free s = forall_chars (fun c => negb (Ascii.eqb c "{") && negb (Ascii.eqb c "}")) s.
Proof.
  unfold brace_free, lacks. induction s as [|c s IH]; [reflexivity|].
  cbn [forall_chars]. rewrite <- IH.
  destruct (Ascii.eqb c "{"), (Ascii.eqb c "}"); cbn; try reflexivity;
    now rewrite ?andb_false_r.
Qed.

(** X5: on a text without any brace the templating changes nothing:
    the cleaned text is the same with [parse] set or not, whatever the
    keyword arguments. *)
Theorem brace_free_text_ignores_parse (kw kw' : gmap string string)
    (uncomment : option (string -> string)) (file : string) :
  brace_free file = true ->
  cleaned (clean_line true kw uncomment) file = cleaned (clean_line false kw' uncomment) file.
Proof.
  intros H. unfold cleaned. rewrite brace_free_forall in H.
  assert (Hs : forall l,
             forall_chars (fun c => negb (Ascii.eqb c "{") && negb (Ascii.eqb c "}")) l = true ->
             clean_line true kw uncomment l = clean_line false kw' uncomment l).
  { intros l Hl. unfold clean_line. rewrite format_plain; [reflexivity|].
    rewrite brace_free_forall. now apply forall_chars_strip. }
  now rewrite (clean_lines_ext _ _ _ (split nl file) Hs (split_char_forall _ "010" file H)).
Qed.

Lemma brace_free_text_ignores_parse_witness :
  clean_script (default_args "job.py") script_text
  = cleaned (clean_line false ∅ (Some uncomment_script)) script_text.
Proof.
  apply (brace_free_text_ignores_parse ∅ ∅ (Some uncomment_script) script_text).
  reflexivity.
Defined.

(** ** What the cleaners return *)

Lemma lacks_split_first (c : ascii) (s : string) :
  lacks c (split_first (String c "") s) = true.
Proof.
  induction s as [|a s IH]; [reflexivity|].
  rewrite split_first_cons, prefix_char. destruct (Ascii.eqb a c) eqn:E; [reflexivity|].
  unfold lacks in *. cbn [forall_chars]. now rewrite E, IH.
Qed.

Lemma forall_chars_join (p : ascii -> bool) (sep : string) (l : list string) :
  forall_chars p sep = true -> List.forallb (forall_chars p) l = true ->
  forall_chars p (join sep l) = true.
Proof.
  intros Hsep. induction l as [|x l IH]; intros H; [reflexivity|].
  cbn in H. apply andb_true_iff in H as [Hx Hl].
  destruct l as [|y l]; [exact Hx|].
  rewrite join_cons, !forall_chars_app, Hx, Hsep. now rewrite (IH Hl).
Qed.

Lemma clean_lines_forall (P : string -> bool) (step : string -> result string)
    (lines : list string) :
  (forall l r, step l = inr r -> P r = true) ->
  forall data out,
    List.forallb P data = true ->
    clean_lines step lines data = inr out ->
    List.forallb P out = true.
Proof.
  intros Hs. induction lines as [|l lines IH]; intros data out Hd; cbn [clean_lines].
  - now intros [= <-].
  - destruct (step l) as [e|r] eqn:E; [discriminate|].
    apply IH. destruct (String.eqb r ""); [exact Hd|].
    rewrite List.forallb_app, Hd. cbn. now rewrite (Hs l r E).
Qed.

(** X6: with [remove_comments] set, the text returned for a script
    holds no ['#'], whatever [parse] and the keyword arguments are: a
    ['#'] that a keyword argument brings in is cut as well. *)
Theorem script_text_has_no_hash (a : Args) (file out : string) :
  a_remove_comments a = true ->
  clean_script a file = inr out ->
  lacks "#" out = true.
Proof.
  intros Hr. unfold clean_script, cleaned. rewrite Hr. cbn [when].
  destruct (clean_lines _ _ _) as [e|data] eqn:E; [discriminate|]. intros [= <-].
  apply forall_chars_join; [reflexivity|].
  apply (clean_lines_forall (lacks "#") _ _) with (data := []) (out := data) in E;
    [exact E| |reflexivity].
  intros l r. unfold clean_line.
  destruct (if a_parse a then _ else _); [discriminate|]. intros [= <-].
  apply lacks_split_first.
Qed.

Lemma script_text_has_no_hash_witness :
  lacks "#" "x = 1   y = 2" = true.
Proof.
  apply (script_text_has_no_hash (default_args "job.py") script_text); reflexivity.
Defined.

Lemma lstrip_blank (s : string) : forall_chars is_space s = true -> lstrip s = "".
Proof.
  induction s as [|c s IH]; intros H; [reflexivity|].
  cbn in H. apply andb_true_iff in H as [Hc Hs]. cbn [lstrip]. rewrite Hc. auto.
Qed.

Lemma strip_blank (s : string) : forall_chars is_space s = true -> strip s = "".
Proof. intros H. unfold strip. now rewrite (lstrip_blank s H). Qed.

Lemma clean_lines_blank (step : string -> result string) (lines : list string) :
  (forall l, forall_chars is_space l = true -> step l = inr "") ->
  List.forallb (forall_chars is_space) lines = true ->
  clean_lines step lines [] = inr [].
Proof.
  intros Hs. induction lines as [|l lines IH]; intros H; [reflexivity|].
  cbn in H. apply andb_true_iff in H as [Hl H]. cbn [clean_lines].
  rewrite (Hs l Hl). cbn. now apply IH.
Qed.

Lemma cleaned_blank (parse rc : bool) (kw : gmap string string) (f : string -> string)
    (file : string) :
  f "" = "" ->
  forall_chars is_space file = true ->
  cleaned (clean_line parse kw (when rc f)) file = inr "".
Proof.
  intros Hf H. unfold cleaned.
  rewrite clean_lines_blank; [reflexivity| |now apply split_char_forall].
  intros l Hl. unfold clean_line. rewrite (strip_blank l Hl).
  destruct parse, rc; cbn; now rewrite ?Hf.
Qed.

(** X7: a file that holds white space only (an empty file too) gives
    the empty string in the four text branches, and makes the
    [jsonc] branch raise the error of [json.loads]. *)
Theorem blank_file_gives_empty_text (a : Args) (file : string) :
  forall_chars is_space file = true ->
  clean_sql a file = inr "" /\ clean_html a file = inr "" /\
  clean_script a file = inr "" /\ clean_js a file = inr "" /\
  read_jsonc (a_remove_comments a) file = inl JSONDecodeError.
Proof.
  intros H. unfold clean_sql, clean_html, clean_script, clean_js, read_jsonc, jsonc_content.
  rewrite !cleaned_blank; try exact H; try reflexivity. repeat split.
Qed.

Lemma blank_file_gives_empty_text_witness :
  clean_script (default_args "job.py") (" " +:+ nl +:+ nl) = inr "".
Proof.
  apply (blank_file_gives_empty_text (default_args "job.py") (" " +:+ nl +:+ nl)).
  reflexivity.
Defined.

Lemma find_none (cl s : string) : contains cl s = false -> find cl s = None.
Proof.
  induction s as [|a s IH]; intros H.
  - cbn in *. apply orb_false_iff in H as [H _]. now rewrite H.
  - rewrite contains_cons in H. apply orb_false_iff in H as [Hp Hs].
    cbn [find]. now rewrite Hp, (IH Hs).
Qed.

Lemma contains_drop (p : string) (n : nat) (s : string) :
  contains p s = false -> contains p (drop n s) = false.
Proof.
  revert s. induction n as [|n IH]; intros s H; [now destruct s|].
  destruct s as [|a s]; [exact H|]. cbn [drop]. apply IH.
  rewrite contains_cons in H. now apply orb_false_iff in H as [_ H].
Qed.

Lemma remove_spans_unclosed (op cl s : string) :
  contains cl s = false -> remove_spans op cl s = s.
Proof.
  unfold remove_spans. induction s as [|a s IH]; intros H; [reflexivity|].
  cbn [remove_spans_go].
  rewrite (find_none _ _ (contains_drop cl (String.length op) _ H)).
  rewrite contains_cons in H. apply orb_false_iff in H as [_ Hs]. rewrite (IH Hs).
  now destruct (is_prefix op (String a s)).
Qed.

(** X8: a comment of an HTML or [jsonc] file that is opened on a line
    and not closed on the same line is kept: a line without a closing
    delimiter is left as it is by the removal of [<!-- -->] spans, and
    likewise by the removal of block comments. *)
Theorem unclosed_comment_is_kept (line : string) :
  (contains "-->" line = false -> uncomment_html line = line) /\
  (contains "*/" line = false -> remove_spans "/*" "*/" line = line).
Proof. split; apply remove_spans_unclosed. Qed.

Lemma unclosed_comment_is_kept_witness :
  uncomment_html "<p>a</p> <!-- note" = "<p>a</p> <!-- note".
Proof. apply (proj1 (unclosed_comment_is_kept "<p>a</p> <!-- note")). reflexivity. Defined.

(** ** The freshness token, again *)

Lemma lower_app (s t : string) : lower (s +:+ t) = lower s +:+ lower t.
Proof. induction s as [|c s IH]; [reflexivity|]. rewrite app_cons. cbn [lower]. now rewrite IH. Qed.

Lemma filter_app (p : ascii -> bool) (s t : string) :
  filter_chars p (s +:+ t) = filter_chars p s +:+ filter_chars p t.
Proof.
  induction s as [|c s IH]; [reflexivity|]. rewrite app_cons. cbn [filter_chars].
  rewrite IH. now destruct (p c).
Qed.

(** X9: the freshness token is read without regard to the case of its
    letters and to its spaces: a token, its lowercase form, the token
    with a space put in anywhere, and the token without its spaces all
    give the same magnitude and unit, or the same error. *)
Theorem freshness_ignores_case_and_spaces (token : string) :
  parse_freshness (CacheVal (lower token)) = parse_freshness (CacheVal token) /\
  parse_freshness (CacheVal (replace " " "" token)) = parse_freshness (CacheVal token) /\
  (forall pre post, token = pre +:+ post ->
     parse_freshness (CacheVal (pre +:+ " " +:+ post)) = parse_freshness (CacheVal token)).
Proof.
  assert (H : forall t u, str_c_time (CacheVal t) = str_c_time (CacheVal u) ->
                          parse_freshness (CacheVal t) = parse_freshness (CacheVal u)).
  { intros t u E. unfold parse_freshness. now rewrite E. }
  repeat split.
  - apply H. unfold str_c_time. cbn [cache_time_str]. now rewrite lower_idem.
  - apply H. unfold str_c_time. cbn [cache_time_str]. rewrite !replace_char_delete.
    induction token as [|c s IH]; [reflexivity|]. cbn [lower filter_chars].
    destruct (Ascii.eqb c " ") eqn:E.
    + apply Ascii.eqb_eq in E. subst c. cbn [negb]. exact IH.
    + cbn [negb lower filter_chars]. rewrite IH.
      assert (E' : Ascii.eqb (lower_char c) " " = false) by (revert E; clear; each_char c).
      now rewrite E'.
  - intros pre post ->. apply H. unfold str_c_time. cbn [cache_time_str].
    rewrite !replace_char_delete, !lower_app, !filter_app. reflexivity.
Qed.

Lemma freshness_ignores_case_and_spaces_witness :
  parse_freshness (CacheVal "30 mins") = parse_freshness (CacheVal "30mins").
Proof.
  apply (proj2 (proj2 (freshness_ignores_case_and_spaces "30mins")) "30" "mins").
  reflexivity.
Defined.

(** ** Bucket and key *)

Lemma replace_none (old new s : string) :
  contains old s = false -> replace old new s = s.
Proof.
  unfold replace. induction s as [|a s IH]; intros H; [reflexivity|].
  rewrite contains_cons in H. apply orb_false_iff in H as [Hp Hs].
  cbn [replace_go]. now rewrite Hp, (IH Hs).
Qed.

Lemma replace_scheme (rest : string) :
  replace "s3://" "" ("s3://" +:+ rest) = replace "s3://" "" rest.
Proof. reflexivity. Qed.

Lemma join_split (c : ascii) (s : string) :
  join (String c "") (split (String c "") s) = s.
Proof.
  induction s as [|a s IH]; [reflexivity|]. rewrite split_char_cons.
  pose proof (split_go_not_nil (String c "") 0 s) as Hne. fold (split (String c "") s) in Hne.
  destruct (split (String c "") s) as [|h t]; [contradiction|].
  destruct (Ascii.eqb a c) eqn:E.
  - apply Ascii.eqb_eq in E. subst a. rewrite join_cons, IH. reflexivity.
  - destruct t as [|h' t].
    + cbn [join] in *. now rewrite IH.
    + rewrite join_cons. rewrite join_cons in IH. rewrite <- IH. reflexivity.
Qed.

(** X10: the bucket and the key are read back from the path: for
    [s3://bucket/key], with a bucket name without ['/'] and no further
    [s3://] in the path, [bucket] is the bucket and [folder_path] is the
    key, whatever ['/'] the key holds. *)
Theorem bucket_and_key_of_path (bucket key : string) :
  lacks "/" bucket = true ->
  contains "s3://" (bucket +:+ "/" +:+ key) = false ->
  bucket_of ("s3://" +:+ bucket +:+ "/" +:+ key) = bucket /\
  folder_path_of ("s3://" +:+ bucket +:+ "/" +:+ key) = key.
Proof.
  intros Hb Hc. unfold bucket_of, folder_path_of.
  rewrite replace_scheme, (replace_none _ _ _ Hc).
  change ("/" +:+ key) with (String "/" key).
  rewrite (split_char_app _ _ _ Hb). cbn [List.hd List.tl].
  split; [reflexivity|apply join_split].
Qed.

Lemma bucket_and_key_of_path_witness :
  bucket_of "s3://bucket/set/2020/part-0.parquet" = "bucket" /\
  folder_path_of "s3://bucket/set/2020/part-0.parquet" = "set/2020/part-0.parquet".
Proof.
  apply (bucket_and_key_of_path "bucket" "set/2020/part-0.parquet"); reflexivity.
Defined.

(** ** The download loops, again *)

Lemma download_each_ext (env : Env) (bucket folder_path path sub : string)
    (skip : string -> string -> bool) (keys : list string) :
  forall (st st' : St) (ext ext' : string),
    for_each keys
      (fun key ext =>
         if skip folder_path key then ret ext
         else bind (download_file env bucket key path sub (split_last "/" key))
                (fun _ => ret (split_last "." key)))
      ext st = (st', inr ext') ->
    ext' = ext_after skip folder_path keys ext.
Proof.
  induction keys as [|key keys IH]; intros st st' ext ext'; cbn [for_each].
  - now intros [= _ <-].
  - unfold bind at 1. unfold ext_after. cbn [List.fold_left].
    destruct (skip folder_path key).
    + cbn [ret]. apply IH.
    + unfold bind at 1.
      destruct (download_file env bucket key path sub (split_last "/" key) st)
        as [st1 [e|[]]]; [discriminate|].
      cbn [ret]. apply IH.
Qed.

(** X11: when a download loop ends without error, [ext] is the text
    after the last ['.'] of the last key that was not skipped (the whole
    key when it has no ['.']), and it is unchanged when every key was
    skipped or none was listed. *)
Theorem download_loop_extension (env : Env) (skip : string -> string -> bool)
    (bucket folder_path path sub ext ext' : string) (st st' : St) :
  download_loop env skip bucket folder_path path sub ext st = (st', inr ext') ->
  exists objs,
    assoc bucket (env_s3 env) = Some objs /\
    ext' = ext_after skip folder_path (keys_under objs folder_path) ext.
Proof.
  unfold download_loop, list_objects, bind. rewrite emit_logged.
  destruct (assoc bucket (env_s3 env)) as [objs|]; [|discriminate].
  cbn [ret]. intros H. exists objs. split; [reflexivity|].
  now apply download_each_ext in H.
Qed.

Lemma download_loop_extension_witness :
  exists objs,
    assoc "bucket" (env_s3 (example_env [] 0)) = Some objs /\
    "parquet" = ext_after skipped_on_first_download "set/" (keys_under objs "set/") "x".
Proof.
  apply (download_loop_extension (example_env [] 0) skipped_on_first_download
           "bucket" "set/" "/tmp/pycof/data/k" "k" "x" "parquet"
           {| st_cache := [("k", [])]; st_log := [] |}
           (fst (download_loop (example_env [] 0) skipped_on_first_download
                   "bucket" "set/" "/tmp/pycof/data/k" "k" "x"
                   {| st_cache := [("k", [])]; st_log := [] |}))).
  reflexivity.
Defined.

(** ** The other subdirectories of the cache *)

Section Keeps.

Variable sub' : string.

















End Keeps.



(** ** What the cache branch hands to the dispatch *)

Lemma emit_cache (e : event) (st st1 : St) (r : result unit) :
  emit e st = (st1, r) -> st_cache st1 = st_cache st.
Proof. now intros [= <- _]. Qed.

Lemma materialize_result (env : Env) (a : Args) (bucket folder_path ext : string)
    (st st' : St) (r : pathv * string) :
  materialize env a bucket folder_path ext st = (st', inr r) ->
  fst r = PStr (cache_path env a) /\
  exists d, assoc (cache_sub env a) (st_cache st') = Some d.
Proof.
  unfold materialize, cache_path, cache_sub. intros H.
  apply bind_inr in H as (st1 & ft & H1 & H).
  assert (C1 : st_cache st1 = st_cache st).
  { destruct (parse_freshness (a_cache a)); cbn in H1; now injection H1 as <- _. }
  apply bind_inr in H as (st2 & [] & H2 & H). apply emit_cache in H2.
  apply bind_inr in H as (st3 & names & H3 & H).
  unfold listdir_root in H3. apply bind_inr in H3 as (st3' & [] & H3a & H3).
  apply emit_cache in H3a. cbn in H3. injection H3 as <- <-.
  apply bind_inr in H as (st4 & e & H4 & H). cbn in H. injection H as <- <-.
  split; [reflexivity|].
  destruct (mem (cache_file_name env a) (List.map fst (st_cache st3'))) eqn:Hm.
  - apply mem_assoc in Hm as [d0 Hd0].
    apply bind_inr in H4 as (st5 & age & H5 & H4).
    assert (C5 : st_cache st5 = st_cache st3').
    { unfold file_age in H5. apply bind_inr in H5 as (st5' & [] & H5a & H5).
      apply emit_cache in H5a. destruct (env_file_age env _ _); cbn in H5; [discriminate|].
      injection H5 as <- _. exact H5a. }
    rewrite <- C5 in Hd0.
    destruct (Qltb age (fst ft)).
    + unfold cache_hit in H4. apply bind_inr in H4 as (st6 & ns & H6 & H4).
      assert (C6 : st_cache st6 = st_cache st5).
      { unfold listdir_sub in H6. apply bind_inr in H6 as (st6' & [] & H6a & H6).
        apply emit_cache in H6a. cbn in H6. unfold get_cache, bind in H6.
        destruct (assoc _ (st_cache st6')); cbn in H6; [|discriminate].
        injection H6 as <- _. exact H6a. }
      destruct (first ns); [|discriminate].
      apply bind_inr in H4 as (st7 & [] & H7 & H4). apply emit_cache in H7.
      cbn in H4. injection H4 as <- _. exists d0. now rewrite H7, C6.
    + unfold cache_refresh in H4. apply bind_inr in H4 as (st6 & [] & H6 & H4).
      apply emit_cache in H6. apply bind_inr in H4 as (st7 & [] & H7 & H4).
      rewrite <- H6 in Hd0.
      apply remove_all_result with (d := d0) in H7 as [_ H7]; [|exact Hd0].
      apply download_loop_result with (d := []) in H4 as (objs & _ & H4); [|exact H7].
      eauto.
  - apply not_mem_assoc in Hm.
    unfold cache_first_download in H4. apply bind_inr in H4 as (st6 & [] & H6 & H4).
    apply emit_cache in H6. apply bind_inr in H4 as (st7 & [] & H7 & H4).
    rewrite <- H6 in Hm. destruct (makedirs_result (cache_path env a) (cache_file_name env a)
                                      st6 Hm) as (st7' & E7 & Hd7).
    unfold cache_path in E7. rewrite E7 in H7. injection H7 as <-.
    apply download_loop_result with (d := []) in H4 as (objs & _ & H4); [|exact Hd7].
    eauto.
Qed.

Lemma is_cache_dir_sub (env : Env) (sub : string) (d : dir) (c : list (string * dir)) :
  assoc sub c = Some d ->
  is_cache_dir env (os_path_join (env_data_path env) sub) c = true.
Proof.
  intros H. unfold is_cache_dir. apply List.existsb_exists.
  induction c as [|[n dn] c IH]; [discriminate|]. cbn [assoc] in H.
  destruct (String.eqb sub n) eqn:E.
  - apply String.eqb_eq in E. subst n. exists (sub, dn). split; [now left|].
    apply String.eqb_refl.
  - destruct (IH H) as (x & Hx & Ex). exists x. split; [now right|exact Ex].
Qed.

Lemma open_read_directory (env : Env) (sub : string) (d : dir) (st : St) :
  assoc sub (st_cache st) = Some d ->
  open_read env (PStr (os_path_join (env_data_path env) sub)) st
  = (logged st [EvOpen (os_path_join (env_data_path env) sub)],
     inl (OSError "IsADirectoryError")).
Proof.
  intros H. unfold open_read, bind. rewrite emit_logged.
  cbn [get_cache logged st_cache]. now rewrite (is_cache_dir_sub env sub d _ H).
Qed.

(** X13: an [s3://] path whose extension is not streamable is replaced
    by the cache subdirectory, which is a directory: the branches that
    open the path as a file (sql, html, script, js, jsonc, json with
    the [json] engine, read-only, and the fallback) all raise, and a
    call that returns returns the outcome of a table decoder, never a
    text. *)
Theorem cached_path_only_feeds_decoders (env : Env) (a : Args) (st st' : St) (v : value) :
  classify_origin (a_path a) = S3 ->
  mem (lower (initial_ext (a_path a) (a_extension a))) streamable = false ->
  read env a st = (st', inr v) ->
  exists c, v = VTable c /\ List.In (EvBackend c) (st_log st').
Proof.
  intros Ho Hs H. unfold read in H. apply bind_inr in H as (st1 & [p e] & Hl & H).
  unfold locate in Hl. rewrite Ho in Hl. unfold s3_stage in Hl.
  apply bind_inr in Hl as (st0 & [] & _ & Hl). rewrite Hs in Hl.
  apply materialize_result in Hl as [Hp (d & Hd)]. cbn [fst snd] in *. subst p.
  rewrite Ho in H. unfold cache_path, cache_sub in *.
  pose proof (open_read_directory env _ d st1 Hd) as Hopen.
  unfold dispatch, read_text, text_value, backend in H.
  repeat match type of H with
         | (if ?b then _ else _) _ = _ => destruct b
         | match ?x with _ => _ end _ = _ => destruct x
         end.
  all: unfold bind in H; rewrite ?Hopen, ?emit_logged in H; try discriminate.
  all: injection H as <- <-; eexists; split; [reflexivity|].
  all: cbn [logged st_log]; apply List.in_or_app; right; now left.
Qed.

Lemma cached_path_only_feeds_decoders_witness :
  exists c,
    VTable (pd_read_parquet (PStr (cache_path (example_env [] 5) (default_args "s3://bucket/set/"))))
    = VTable c /\
    List.In (EvBackend c)
      (st_log (fst (read (example_env [] 5) (default_args "s3://bucket/set/") empty_state))).
Proof.
  apply (cached_path_only_feeds_decoders (example_env [] 5)
           (default_args "s3://bucket/set/") empty_state); reflexivity.
Defined.

(** ** JSON from S3 *)

Lemma locate_streamable (env : Env) (a : Args) (st st1 : St) (pe : pathv * string) :
  classify_origin (a_path a) = S3 ->
  mem (lower (initial_ext (a_path a) (a_extension a))) streamable = true ->
  locate env a st = (st1, inr pe) ->
  exists body, pe = (PBytesIO body, initial_ext (a_path a) (a_extension a)).
Proof.
  intros Ho Hs H. unfold locate in H. rewrite Ho in H. unfold s3_stage in H.
  apply bind_inr in H as (st0 & [] & _ & H). rewrite Hs in H.
  apply bind_inr in H as (st2 & [] & _ & H). apply bind_inr in H as (st3 & body & _ & H).
  cbn in H. injection H as _ <-. eauto.
Qed.

(** X14: a JSON object on S3 cannot be read with the [json] engine:
    the object is fetched into a buffer, which line 245 hands to
    [open]; the call raises [TypeError] when the fetch succeeded, and
    the error of the session or of the fetch otherwise. *)
Theorem s3_json_engine_raises (env : Env) (a : Args) (st : St) (s : string) :
  classify_origin (a_path a) = S3 ->
  lower (initial_ext (a_path a) (a_extension a)) = "json" ->
  a_engine a = EngStr s ->
  lower s = "json" ->
  (forall st' v, read env a st <> (st', inr v)) /\
  (forall st1 pe, locate env a st = (st1, inr pe) -> read env a st = (st1, inl TypeError)).
Proof.
  intros Ho He Hen Hs.
  assert (Hstr : mem (lower (initial_ext (a_path a) (a_extension a))) streamable = true)
    by now rewrite He.
  assert (H2 : forall st1 pe, locate env a st = (st1, inr pe) ->
                              read env a st = (st1, inl TypeError)).
  { intros st1 pe Hl. destruct (locate_streamable env a st st1 pe Ho Hstr Hl) as [body ->].
    unfold read, bind. rewrite Hl. cbn [fst snd]. unfold dispatch. rewrite He.
    cbn [mem List.existsb String.eqb Ascii.eqb Bool.eqb orb]. rewrite Hen, Hs. reflexivity. }
  split; [|exact H2].
  intros st' v H. pose proof H as H'. unfold read in H'.
  apply bind_inr in H' as (st1 & pe & Hl & _). rewrite (H2 st1 pe Hl) in H. discriminate.
Qed.

Lemma s3_json_engine_raises_witness :
  read (example_env [] 0)
    (with_extension (with_engine (default_args "s3://bucket/data.csv") (EngStr "JSON"))
       (Some "Json")) empty_state
  = (logged empty_state
       [EvSession None; EvVerbose "Loading the data from S3 directly" false;
        EvGetObject "bucket" "data.csv"],
     inl TypeError).
Proof.
  apply (proj2 (s3_json_engine_raises (example_env [] 0)
                  (with_extension (with_engine (default_args "s3://bucket/data.csv")
                                     (EngStr "JSON")) (Some "Json"))
                  empty_state "JSON" eq_refl eq_refl eq_refl eq_refl)
           _ (PBytesIO "a,b", "Json")).
  reflexivity.
Defined.

(** ** The session *)

(** X15: for an [s3://] path nothing happens before the session is
    open: when the session of the profile cannot be built the call
    raises, having made no call to the object store or to the cache
    directory.  A missing profile falls back on the configuration, and
    the error of [_get_config], whatever it is, is raised as it is; only
    a [FileNotFoundError] of the session itself becomes a
    [ConnectionError]. *)
Theorem s3_read_stops_without_session (env : Env) (a : Args) (st : St) :
  classify_origin (a_path a) = S3 ->
  (forall e,
      env_session env (a_profile_name a) = Some ProfileNotFound ->
      env_get_config env (a_credentials a) = Some e ->
      read env a st
      = (logged st [EvSession (a_profile_name a); EvGetConfig (a_credentials a)], inl e)) /\
  (env_session env (a_profile_name a) = Some (OSError "FileNotFoundError") ->
   read env a st = (logged st [EvSession (a_profile_name a)], inl ConnectionError)) /\
  (forall st1 e,
      authenticate env a st = (st1, inl e) ->
      read env a st = (st1, inl e) /\ st_cache st1 = st_cache st).
Proof.
  intros Ho. unfold read, locate. rewrite Ho. unfold s3_stage. repeat split.
  - intros e H1 H2. unfold bind, authenticate, bind. rewrite emit_logged, H1, emit_logged, H2.
    cbn. now rewrite logged_logged.
  - intros H1. unfold bind, authenticate, bind. now rewrite emit_logged, H1.
  - unfold bind. now rewrite H.
  - now apply authenticate_cache in H.
Qed.

Lemma s3_read_stops_without_session_witness :
  read no_credentials_env (default_args "s3://bucket/data.csv") empty_state
  = (logged empty_state [EvSession None; EvGetConfig ""], inl (OSError "FileNotFoundError")).
Proof.
  apply (proj1 (s3_read_stops_without_session no_credentials_env
                  (default_args "s3://bucket/data.csv") empty_state eq_refl)
           (OSError "FileNotFoundError")); reflexivity.
Defined.

(** ** A HIT and the object store *)

Lemma forallb_impl {A} (P Q : A -> bool) (l : list A) :
  (forall x, P x = true -> Q x = true) ->
  List.forallb P l = true -> List.forallb Q l = true.
Proof.
  intros H. induction l as [|x l IH]; [reflexivity|]. cbn. intros E.
  apply andb_true_iff in E as [Ex El]. now rewrite (H x Ex), (IH El).
Qed.

Lemma locate_hit (env : Env) (a : Args) (st st0 : St) (c_time age : Q) (fmt f body : string)
    (d : dir) :
  classify_origin (a_path a) = S3 ->
  mem (lower (initial_ext (a_path a) (a_extension a))) streamable = false ->
  authenticate env a st = (st0, inr tt) ->
  parse_freshness (a_cache a) = inr (c_time, fmt) ->
  assoc (cache_sub env a) (st_cache st) = Some ((f, body) :: d) ->
  env_file_age env (cache_path env a) fmt = inr age ->
  (age < c_time)%Q ->
  locate env a st =
  (logged st0 [EvDataFolder; EvListdir (env_data_path env); EvFileAge (cache_path env a) fmt;
               EvListdir (cache_path env a);
               EvVerbose "Data file available in cache" (a_verbose a)],
   inr (PStr (cache_path env a), split_last "." f)).
Proof.
  intros Ho Hs Ha Hp Hd Hage Hlt. unfold cache_path, cache_sub in *.
  rewrite <- (authenticate_cache _ _ _ _ _ Ha) in Hd.
  unfold locate. rewrite Ho. unfold s3_stage, bind. rewrite Ha, Hs.
  unfold materialize, bind. rewrite Hp. cbn [lift ret fst snd].
  rewrite emit_logged. unfold listdir_root, bind. rewrite emit_logged.
  cbn [get_cache logged st_cache ret]. rewrite (assoc_mem _ _ _ Hd).
  unfold file_age, bind. rewrite emit_logged, Hage. cbn [lift ret].
  rewrite (Qltb_lt _ _ Hlt). unfold cache_hit, listdir_sub, bind. rewrite emit_logged.
  cbn [get_cache logged st_cache ret]. rewrite Hd. cbn [List.map first fst].
  unfold verbose_display, ret. cbn [first lookup list_lookup].
  rewrite emit_logged, !logged_logged. reflexivity.
Qed.

(** X16: on a HIT with a cache subdirectory that is not empty, the
    whole call reaches the object store not once (no object is fetched,
    listed or downloaded) and leaves the cache directory as it was. *)
Theorem cache_hit_stays_local (env : Env) (a : Args) (st st0 : St) (c_time age : Q)
    (fmt f body : string) (d : dir) :
  classify_origin (a_path a) = S3 ->
  mem (lower (initial_ext (a_path a) (a_extension a))) streamable = false ->
  authenticate env a st = (st0, inr tt) ->
  parse_freshness (a_cache a) = inr (c_time, fmt) ->
  assoc (cache_sub env a) (st_cache st) = Some ((f, body) :: d) ->
  env_file_age env (cache_path env a) fmt = inr age ->
  (age < c_time)%Q ->
  st_cache (fst (read env a st)) = st_cache st /\
  exists evs, st_log (fst (read env a st)) = st_log st ++ evs /\
              List.forallb no_store_event evs = true.
Proof.
  intros Ho Hs Ha Hp Hd Hage Hlt.
  pose proof (locate_hit env a st st0 c_time age fmt f body d Ho Hs Ha Hp Hd Hage Hlt) as Hl.
  destruct (authenticate_quiet no_store_event env a (fun _ => eq_refl) (fun _ => eq_refl) st)
    as [Hc0 (evs0 & Hl0 & Hp0)].
  rewrite Ha in Hc0, Hl0. cbn [fst] in Hc0, Hl0.
  unfold read, bind. rewrite Hl. cbn [fst snd].
  match goal with
  | |- context [dispatch env a ?o ?p ?e ?s] =>
      destruct (dispatch_local env a o p e s) as [Hc1 (evs1 & Hl1 & Hp1)]
  end.
  split.
  - rewrite Hc1. cbn [logged st_cache]. exact Hc0.
  - eexists. split.
    + rewrite Hl1. cbn [logged st_log]. rewrite Hl0, <- !List.app_assoc. reflexivity.
    + rewrite !List.forallb_app, Hp0. cbn.
      apply (forallb_impl local_event no_store_event); [|exact Hp1].
      now intros [].
Qed.

Lemma cache_hit_stays_local_witness :
  st_cache (fst (read (example_env [] 5) (default_args "s3://bucket/set/")
                   (cached_state [("part-0.parquet", "PAR1")])))
  = [(example_key, [("part-0.parquet", "PAR1")])].
Proof.
  apply (cache_hit_stays_local (example_env [] 5) (default_args "s3://bucket/set/")
           (cached_state [("part-0.parquet", "PAR1")])
           (logged (cached_state [("part-0.parquet", "PAR1")]) [EvSession None])
           30%Q 5%Q "mins" "part-0.parquet" "PAR1" []); reflexivity.
Defined.

(** ** A path that names one object *)



(** ** URLs *)

Lemma open_read_no_url (env : Env) (path : pathv) : quiet no_url_event (open_read env path).
Proof.
  unfold open_read, get_cache. destruct path; repeat quiet_step.
  intros st. split; [reflexivity|]. exists []. now rewrite List.app_nil_r.
Qed.

(** X18: a URL is fetched for the [html] extension only: with any
    other extension the dispatch makes no HTTP request, so that an
    [http] path is then handed to [open] or to a decoder as it is. *)
Theorem only_html_fetches_urls (env : Env) (a : Args) (orgn : origin) (path : pathv)
    (ext : string) (st : St) :
  mem (lower ext) ["html"] = false ->
  exists evs,
    st_log (fst (dispatch env a orgn path ext st)) = st_log st ++ evs /\
    List.forallb no_url_event evs = true.
Proof.
  intros Hh.
  assert (Hq : quiet no_url_event (dispatch env a orgn path ext)).
  { pose proof (open_read_no_url env) as Ho.
    unfold dispatch, backend, text_value, read_text, print. rewrite Hh.
    repeat first [apply Ho | quiet_step]. }
  apply Hq.
Qed.

Lemma only_html_fetches_urls_witness :
  read (example_env [] 0) (default_args "http://host/page.sql") empty_state
  = (logged empty_state [EvOpen "http://host/page.sql"], inl (OSError "FileNotFoundError"))
  /\ exists evs,
      st_log (fst (dispatch (example_env [] 0) (default_args "http://host/page.sql") Http
                     (PStr "http://host/page.sql") "sql" empty_state))
      = st_log empty_state ++ evs /\ List.forallb no_url_event evs = true.
Proof.
  split; [reflexivity|].
  apply (only_html_fetches_urls (example_env [] 0) (default_args "http://host/page.sql")
           Http (PStr "http://host/page.sql") "sql" empty_state).
  reflexivity.
Defined.

(** ** The cleaned text *)

Lemma clean_lines_plain (f : string -> string) (lines : list string) :
  forall data,
    clean_lines (fun l => inr (f l)) lines data
    = inr (data ++ List.filter (fun s => negb (String.eqb s "")) (List.map f lines)).
Proof.
  induction lines as [|l lines IH]; intros data; cbn [clean_lines List.map List.filter].
  - now rewrite List.app_nil_r.
  - rewrite IH. destruct (String.eqb (f l) ""); cbn [negb]; [reflexivity|].
    now rewrite <- List.app_assoc.
Qed.

(** X19: without templating, the cleaned text is the lines of the file
    in their order, each stripped and then relieved of its comment,
    the lines that end up empty left out, joined by one space; the
    cleaner raises nothing. *)
Theorem cleaned_text_shape (kw : gmap string string)
    (uncomment : option (string -> string)) (file : string) :
  cleaned (clean_line false kw uncomment) file
  = inr (join " "
           (List.filter (fun s => negb (String.eqb s ""))
              (List.map (fun l => uncommented uncomment (strip l)) (split nl file)))).
Proof.
  unfold cleaned.
  change (clean_line false kw uncomment)
    with (fun l => @inr exn string (uncommented uncomment (strip l))).
  now rewrite clean_lines_plain.
Qed.

(** ** The unit of the freshness *)


(** X20: the unit handed to [file_age] is made of lowercase letters
    only, and every letter of the token goes to the unit, none to the
    number: a token in exponent form is not read as such (['1e3'] is
    the magnitude 13 with the unit ['e']). *)
Theorem freshness_unit_is_lowercase (c : cache_arg) (m : Q) (u : string) :
  parse_freshness c = inr (m, u) ->
  forall_chars is_lower u = true /\
  u = alpha_part (str_c_time c) /\
  PyFloat.float (numeric_part (str_c_time c)) = inr m /\
  forall_chars (fun x => negb (is_lower x || is_upper x)) (numeric_part (str_c_time c)) = true.
Proof.
  intros H. pose proof (parse_freshness_unit c m u H) as Hu. subst u.
  repeat split.
  - apply forall_filter_self.
  - unfold parse_freshness in H. destruct (PyFloat.float _); [discriminate|].
    now injection H as ->.
  - apply numeric_part_no_letter.
Qed.

Lemma freshness_unit_is_lowercase_witness :
  forall_chars is_lower "e" = true /\
  "e" = alpha_part (str_c_time (CacheVal "1E3")) /\
  PyFloat.float (numeric_part (str_c_time (CacheVal "1E3"))) = inr 13%Q /\
  forall_chars (fun x => negb (is_lower x || is_upper x))
    (numeric_part (str_c_time (CacheVal "1E3"))) = true.
Proof.
  apply (freshness_unit_is_lowercase (CacheVal "1E3") 13%Q "e"). reflexivity.
Defined.

(** ** The parquet engines *)

(** X21: for a parquet file that is not read from S3, the engine
    names [fp] and [fastparquet] (in any case) call the fastparquet
    decoder but the table it builds is not returned: [read] returns
    the empty list; the names [py], [pa] and [pyarrow], and ['auto'],
    return the table of the pyarrow decoder. *)
Theorem fastparquet_table_is_dropped (env : Env) (a : Args) (orgn : origin) (path : pathv)
    (ext s : string) (st : St) :
  mem (lower ext) ["parq"; "parquet"] = true ->
  orgn <> S3 ->
  a_engine a = EngStr s ->
  (mem (lower s) ["fp"; "fastparquet"] = true ->
   dispatch env a orgn path ext st
   = (logged st [EvBackend (fastparquet_ParquetFile path (a_kwargs a))], inr (VList []))) /\
  (s = "auto" \/ mem (lower s) ["py"; "pa"; "pyarrow"] = true ->
   dispatch env a orgn path ext st
   = (logged st [EvBackend (pq_ParquetDataset path (a_kwargs a))],
      inr (VTable (pq_ParquetDataset path (a_kwargs a))))).
Proof.
  intros Hext Ho He.
  assert (Hd : dispatch env a orgn path ext st =
               (if mem (lower (if String.eqb s "auto" then "pyarrow" else s))
                     ["py"; "pa"; "pyarrow"]
                then backend (pq_ParquetDataset path (a_kwargs a))
                else if mem (lower (if String.eqb s "auto" then "pyarrow" else s))
                          ["fp"; "fastparquet"]
                     then bind (emit (EvBackend (fastparquet_ParquetFile path (a_kwargs a))))
                            (fun _ => ret (VList []))
                     else raise (ValueError "Engine value not allowed")) st).
  { unfold dispatch. mem_cases Hext; rewrite Hext;
      cbn [mem List.existsb String.eqb Ascii.eqb Bool.eqb orb]; rewrite He;
      cbn [engine_is_auto]; destruct orgn; try contradiction;
      destruct (String.eqb s "auto"); reflexivity. }
  rewrite Hd. split.
  - intros Hm. destruct (String.eqb s "auto") eqn:E.
    + apply String.eqb_eq in E. subst s. discriminate.
    + mem_cases Hm; rewrite Hm; reflexivity.
  - intros [-> | Hm]; [reflexivity|].
    destruct (String.eqb s "auto"); [reflexivity|]. now rewrite Hm.
Qed.

Lemma fastparquet_table_is_dropped_witness :
  dispatch (example_env [] 0) (with_engine (default_args "t.parquet") (EngStr "FastParquet"))
    Other (PStr "t.parquet") "parquet" empty_state
  = (logged empty_state [EvBackend (fastparquet_ParquetFile (PStr "t.parquet") ∅)],
     inr (VList [])).
Proof.
  apply (proj1 (fastparquet_table_is_dropped (example_env [] 0)
                  (with_engine (default_args "t.parquet") (EngStr "FastParquet"))
                  Other (PStr "t.parquet") "parquet" "FastParquet" empty_state
                  eq_refl ltac:(discriminate) eq_refl)).
  reflexivity.
Defined.

(** ** A cache name given by the caller *)


